(** * NoSpin: the news aggregation pipeline, embedded in Rocq

    Shallow embedding of [backend/services]: [news_gatherer.py],
    [opinion_classifier.py], [article_scorer.py] and [image_handler.py].

    Conventions of the embedding.
    - A Python [str] whose code points are below 256 is a Rocq [string],
      one [ascii] per code point; [str.lower], [str.strip], [str.split]
      follow Python on that range.
    - A Python [float] is a primitive binary64 [float]; comparisons are the
      IEEE ones ([<?], [<=?]), arithmetic is correctly rounded.
    - A Python [dict] with string keys is a [gmap string _]; objects that
      are mutated in place live in a heap indexed by locations.
    - A call that may raise returns an [outcome]. *)

From Stdlib Require Import ZArith NArith Floats Ascii String List Bool DecimalString.
From stdpp Require Import base option list gmap strings.

Local Open Scope string_scope.
Local Open Scope list_scope.
#[local] Set Warnings "-inexact-float,-register-all".

(** ** Exceptions *)

Inductive exn : Type :=
| Exception (kind : string).

Inductive outcome (A : Type) : Type :=
| Ret (a : A)
| Raise (e : exn).
Arguments Ret {A} a.
Arguments Raise {A} e.

Global Instance outcome_ret : MRet outcome := @Ret.

Global Instance outcome_bind : MBind outcome := fun A B k m =>
  match m with
  | Ret a => k a
  | Raise e => Raise e
  end.

(** [try: m except Exception: h] *)
Definition try_except {A : Type} (m : outcome A) (h : exn -> outcome A) : outcome A :=
  match m with
  | Ret a => Ret a
  | Raise e => h e
  end.

(** ** Python strings *)

Module PyStr.

(** [c.isspace()] for a code point below 256. *)
Definition isspace (c : ascii) : bool :=
  let n := N_of_ascii c in
  ((9 <=? n) && (n <=? 13) || (28 <=? n) && (n <=? 32)
   || (n =? 133) || (n =? 160))%N.

Definition isupper (c : ascii) : bool :=
  let n := N_of_ascii c in
  ((65 <=? n) && (n <=? 90)
   || (192 <=? n) && (n <=? 222) && negb (n =? 215))%N.

Definition lower_char (c : ascii) : ascii :=
  if isupper c then ascii_of_N (N_of_ascii c + 32) else c.

(** [s.lower()] *)
Fixpoint lower (s : string) : string :=
  match s with
  | EmptyString => EmptyString
  | String c s' => String (lower_char c) (lower s')
  end.

(** [s.lstrip()] *)
Fixpoint lstrip (s : string) : string :=
  match s with
  | EmptyString => EmptyString
  | String c s' => if isspace c then lstrip s' else s
  end.

(** [s.rstrip()] *)
Fixpoint rstrip (s : string) : string :=
  match s with
  | EmptyString => EmptyString
  | String c s' =>
      match rstrip s' with
      | EmptyString => if isspace c then EmptyString else String c EmptyString
      | r => String c r
      end
  end.

(** [s.strip()] *)
Definition strip (s : string) : string := rstrip (lstrip s).

(** Truth value of a string: [if s]. *)
Definition truthy (s : string) : bool :=
  match s with EmptyString => false | _ => true end.

(** [s.startswith(p)] *)
Fixpoint startswith (s p : string) : bool :=
  match p, s with
  | EmptyString, _ => true
  | String a p', String b s' => if Ascii.eqb a b then startswith s' p' else false
  | String _ _, EmptyString => false
  end.

(** [k in s]: [k] occurs in [s] as a substring. *)
Fixpoint contains (k s : string) : bool :=
  startswith s k ||
  match s with
  | EmptyString => false
  | String _ s' => contains k s'
  end.

(** Number of positions of [s] at which [k] occurs. *)
Fixpoint occurrences (k s : string) : nat :=
  match s with
  | EmptyString => 0
  | String _ s' => (if startswith s k then 1 else 0) + occurrences k s'
  end.

(** [s.split()]: the maximal runs of characters that are not whitespace. *)
Fixpoint split_go (cur : string) (s : string) : list string :=
  match s with
  | EmptyString => if truthy cur then [cur] else []
  | String c s' =>
      if isspace c
      then (if truthy cur then [cur] else []) ++ split_go EmptyString s'
      else split_go (cur +:+ String c EmptyString) s'
  end.
Definition split (s : string) : list string := split_go EmptyString s.

(** [s.split(sep)] for a separator of one character. *)
Fixpoint split_on_go (sep : ascii) (cur : string) (s : string) : list string :=
  match s with
  | EmptyString => [cur]
  | String c s' =>
      if Ascii.eqb c sep
      then cur :: split_on_go sep EmptyString s'
      else split_on_go sep (cur +:+ String c EmptyString) s'
  end.
Definition split_on (sep : ascii) (s : string) : list string :=
  split_on_go sep EmptyString s.

(** [s.replace(old, new)] for a non-empty [old]: the occurrences are
    replaced from the left, without overlap. [skip] counts the characters
    of a matched occurrence that remain to be dropped. *)
Fixpoint replace_go (skip : nat) (old new : string) (s : string) : string :=
  match s with
  | EmptyString => EmptyString
  | String c s' =>
      match skip with
      | S k => replace_go k old new s'
      | O =>
          if startswith s old
          then new +:+ replace_go (String.length old - 1) old new s'
          else String c (replace_go 0 old new s')
      end
  end.
Definition replace (s old new : string) : string := replace_go 0 old new s.

(** [s[:n]] *)
Fixpoint slice_to (n : nat) (s : string) : string :=
  match n, s with
  | S k, String c s' => String c (slice_to k s')
  | _, _ => EmptyString
  end.

(** [urllib.parse.quote(s)] with the default [safe='/']: letters, digits
    and [_.-~/] are kept, every other character is UTF-8 encoded and each
    byte written as [%XX]. *)
Definition hex_digit (n : N) : ascii :=
  if (n <? 10)%N then ascii_of_N (48 + n) else ascii_of_N (55 + n).

Definition percent (b : N) : string :=
  String "%" (String (hex_digit (b / 16)) (String (hex_digit (b mod 16)) EmptyString)).

Definition unreserved (c : ascii) : bool :=
  let n := N_of_ascii c in
  ((65 <=? n) && (n <=? 90) || (97 <=? n) && (n <=? 122)
   || (48 <=? n) && (n <=? 57)
   || (n =? 95) || (n =? 46) || (n =? 45) || (n =? 126) || (n =? 47))%N.

Definition quote_char (c : ascii) : string :=
  let n := N_of_ascii c in
  if unreserved c then String c EmptyString
  else if (n <? 128)%N then percent n
  else percent (192 + n / 64) +:+ percent (128 + n mod 64).

Fixpoint quote (s : string) : string :=
  match s with
  | EmptyString => EmptyString
  | String c s' => quote_char c +:+ quote s'
  end.

(** First and last character are not whitespace. *)
Definition starts_with_space (s : string) : bool :=
  match s with
  | EmptyString => false
  | String c _ => isspace c
  end.

Fixpoint ends_with_space (s : string) : bool :=
  match s with
  | EmptyString => false
  | String c EmptyString => isspace c
  | String _ s' => ends_with_space s'
  end.

Definition trimmed (s : string) : Prop :=
  starts_with_space s = false /\ ends_with_space s = false.

End PyStr.

(** ** Python floats *)

Module PyFloat.

Local Open Scope float_scope.

(** [min(a, b)]: [b] replaces [a] when [b < a]. *)
Definition py_min (a b : float) : float := if b <? a then b else a.

(** [max(a, b)]: [b] replaces [a] when [b > a]. *)
Definition py_max (a b : float) : float := if a <? b then b else a.

(** The integer nearest to [m * 2^e * 10], ties to even. *)
Definition nearest_tenths (m : positive) (e : Z) : Z :=
  match e with
  | Zneg p =>
      let d := Z.pow_pos 2 p in
      let (q, r) := Z.div_eucl (10 * Zpos m) d in
      match (2 * r ?= d)%Z with
      | Lt => q
      | Gt => (q + 1)%Z
      | Eq => if Z.even q then q else (q + 1)%Z
      end
  | _ => (10 * Zpos m * 2 ^ e)%Z
  end.

(** The float nearest to [n / 10], with the sign [s]. *)
Definition tenths (s : bool) (n : Z) : float :=
  match n with
  | Zpos p =>
      SF2Prim (SFdiv prec emax (S754_finite s p 0) (S754_finite false 10 0))
  | _ => if s then (-0) else 0
  end.

(** [round(x, 1)]: the decimal with one digit nearest to the exact value
    of [x] (ties to even), converted back to the nearest float; zeros,
    infinities and NaN round to themselves. *)
Definition round1 (x : float) : float :=
  match Prim2SF x with
  | S754_finite s m e => tenths s (nearest_tenths m e)
  | _ => x
  end.

(** A float with one decimal: the float nearest to [n / 10] or [- n / 10]. *)
Definition one_decimal (x : float) : Prop :=
  exists (s : bool) (n : Z), x = tenths s n.

(** Finite or infinite, and below zero. *)
Definition negative (x : spec_float) : bool :=
  match x with
  | S754_finite true _ _ | S754_infinity true => true
  | _ => false
  end.

(** [float(n)] for a Python int. *)
Definition of_int (n : Z) : float :=
  SF2Prim (binary_normalize prec emax n 0 false).

End PyFloat.

(** ** Python objects in the heap *)

Inductive value : Type :=
| VStr (s : string)
| VFloat (f : float).

Definition loc := positive.

Inductive object : Type :=
| ODict (d : gmap string value)
| OList (items : list loc).

(** ** opinion_classifier.py *)

Module OpinionClassifier.

Local Open Scope float_scope.

Section Classifier.

(** [str(f)] on a float, used when an f-string formats a value that is
    not a string. *)
Variable float_repr : float -> string.

(** [self.analyzer]: [None], or VADER's [polarity_scores(text)['compound']]. *)
Variable analyzer : option (string -> float).

Definition positive_words : list string :=
  ["excellent"; "good"; "great"; "support"; "liberty"; "freedom";
   "save"; "peace"; "reforms"; "modernization"; "efficient";
   "necessary"; "revival"; "essential"; "working"].

Definition negative_words : list string :=
  ["terrible"; "bad"; "worst"; "hate"; "fail"; "crisis"; "destroy";
   "culprit"; "blocked"; "abuses"; "cheats"; "terror"; "crushed";
   "dictatorship"; "threatening"; "harm"; "hurt"; "kill"].

(** [for word in words: if word in text_lower: score += 0.3] *)
Fixpoint add_hits (text_lower : string) (words : list string) (score : float) : float :=
  match words with
  | [] => score
  | word :: rest =>
      add_hits text_lower rest
        (if PyStr.contains word text_lower then score + 0.3 else score)
  end.

(** [for word in words: if word in text_lower: score -= 0.3] *)
Fixpoint sub_hits (text_lower : string) (words : list string) (score : float) : float :=
  match words with
  | [] => score
  | word :: rest =>
      sub_hits text_lower rest
        (if PyStr.contains word text_lower then score - 0.3 else score)
  end.

Definition _analyze_sentiment (text : string) : float :=
  match analyzer with
  | Some polarity_compound => polarity_compound text
  | None =>
      let text_lower := PyStr.lower text in
      let score := 0 in
      let score := add_hits text_lower positive_words score in
      let score := sub_hits text_lower negative_words score in
      PyFloat.py_max (-1) (PyFloat.py_min 1 score)
  end.

Definition _determine_stance (score : float) : string :=
  if 0.15 <=? score then "IN_FAVOR"
  else if score <=? -0.15 then "AGAINST"
  else "NEUTRAL".

(** [f"{v}"] *)
Definition format (v : value) : string :=
  match v with
  | VStr s => s
  | VFloat f => float_repr f
  end.

(** [article.get(key) == s] *)
Definition get_eq_str (article : gmap string value) (key s : string) : bool :=
  match article !! key with
  | Some (VStr t) => String.eqb t s
  | _ => false
  end.

(** One iteration of the loop of [classify_articles]: the dict at
    [article] is updated in place. *)
Definition classify_article (h : gmap loc object) (article : loc)
  : outcome (gmap loc object) :=
  match h !! article with
  | Some (ODict d) =>
      if get_eq_str d "political_bucket" "center" then
        let d := <["sentiment_score" := VFloat 0]> d in
        let d := <["stance" := VStr "NEUTRAL"]> d in
        Ret (<[article := ODict d]> h)
      else
        let text_to_analyze :=
          format (default (VStr "") (d !! "title")) +:+ " " +:+
          format (default (VStr "") (d !! "content")) in
        let score :=
          if negb (PyStr.truthy (PyStr.strip text_to_analyze)) then 0
          else _analyze_sentiment text_to_analyze in
        let stance := _determine_stance score in
        let d := <["sentiment_score" := VFloat score]> d in
        let d := <["stance" := VStr stance]> d in
        Ret (<[article := ODict d]> h)
  | _ => Raise (Exception "AttributeError")
  end.

(** [for article in items: ...] *)
Fixpoint classify_loop (items : list loc) (h : gmap loc object)
  : outcome (gmap loc object) :=
  match items with
  | [] => Ret h
  | article :: rest => h' ← classify_article h article; classify_loop rest h'
  end.

(** [classify_articles(articles)]: [articles] is the location of the
    list object; the result is the new heap and the returned
    reference. *)
Definition classify_articles (h : gmap loc object) (articles : loc)
  : outcome (gmap loc object * loc) :=
  match h !! articles with
  | Some (OList items) =>
      h' ← classify_loop items h; Ret (h', articles)
  | _ => Raise (Exception "TypeError")
  end.

End Classifier.

(** The two dicts agree on every key other than the two keys written by
    the classifier. *)
Definition same_fields (d d' : gmap string value) : Prop :=
  forall k : string, k <> "sentiment_score" -> k <> "stance" -> d' !! k = d !! k.

Definition center (d : gmap string value) : Prop :=
  d !! "political_bucket" = Some (VStr "center").

Definition forced_neutral (d : gmap string value) : Prop :=
  d !! "sentiment_score" = Some (VFloat 0) /\ d !! "stance" = Some (VStr "NEUTRAL").

Definition classified (d : gmap string value) : Prop :=
  exists (score : float) (stance : string),
    d !! "sentiment_score" = Some (VFloat score) /\ d !! "stance" = Some (VStr stance).

(** Every item of the list is the location of a dict. *)
Definition is_dict (h : gmap loc object) (a : loc) : bool :=
  match h !! a with
  | Some (ODict _) => true
  | _ => false
  end.

Definition all_dicts (h : gmap loc object) (items : list loc) : Prop :=
  forallb (is_dict h) items = true.

(** After the call: every center article of the list is forced to
    neutral, whatever it says. *)
Definition center_neutral (h h' : gmap loc object) (items : list loc) : Prop :=
  (forall (a : loc) (d : gmap string value),
      a ∈ items -> h !! a = Some (ODict d) -> center d ->
      exists d', h' !! a = Some (ODict d') /\ center d' /\ forced_neutral d')
  /\ (forall (a : loc) (d' : gmap string value),
      a ∈ items -> h' !! a = Some (ODict d') -> center d' -> forced_neutral d').

(** After the call: the heap holds the same objects, the lists are as
    they were, and a dict differs from what it was at most in the two
    keys, which are set for the dicts of the list. *)
Definition only_classification_written
  (h h' : gmap loc object) (items : list loc) : Prop :=
  (forall (l : loc) (its : list loc),
      h !! l = Some (OList its) -> h' !! l = Some (OList its))
  /\ (forall (l : loc) (d : gmap string value),
      h !! l = Some (ODict d) ->
      exists d', h' !! l = Some (ODict d')
                 /\ same_fields d d'
                 /\ (l ∈ items -> classified d')
                 /\ (l ∉ items -> d' = d))
  /\ (forall l : loc, h !! l = None -> h' !! l = None).

(** The fallback of the specification, read literally: 0.3 is added for
    every occurrence of every positive keyword and subtracted for every
    occurrence of every negative keyword. *)
Fixpoint add_n (n : nat) (score : float) : float :=
  match n with
  | O => score
  | S k => add_n k (score + 0.3)
  end.

Fixpoint sub_n (n : nat) (score : float) : float :=
  match n with
  | O => score
  | S k => sub_n k (score - 0.3)
  end.

Definition total_occurrences (words : list string) (text_lower : string) : nat :=
  list_sum (map (fun w => PyStr.occurrences w text_lower) words).

Definition per_occurrence_score (text : string) : float :=
  let text_lower := PyStr.lower text in
  let score := add_n (total_occurrences positive_words text_lower) 0 in
  let score := sub_n (total_occurrences negative_words text_lower) score in
  PyFloat.py_max (-1) (PyFloat.py_min 1 score).

(** Number of keywords of [words] that occur in the text at least once. *)
Definition keywords_present (words : list string) (text_lower : string) : nat :=
  length (filter (fun w => PyStr.contains w text_lower = true) words).

Definition per_keyword_score (text : string) : float :=
  let text_lower := PyStr.lower text in
  let score := add_n (keywords_present positive_words text_lower) 0 in
  let score := sub_n (keywords_present negative_words text_lower) score in
  PyFloat.py_max (-1) (PyFloat.py_min 1 score).

(** What one iteration of the loop of [classify_articles] makes of the
    dict it visits. *)
Definition classify_dict (float_repr : float -> string)
  (analyzer : option (string -> float)) (d : gmap string value) : gmap string value :=
  if get_eq_str d "political_bucket" "center" then
    <["stance" := VStr "NEUTRAL"]> (<["sentiment_score" := VFloat 0]> d)
  else
    let text_to_analyze :=
      format float_repr (default (VStr "") (d !! "title")) +:+ " " +:+
      format float_repr (default (VStr "") (d !! "content")) in
    let score :=
      if negb (PyStr.truthy (PyStr.strip text_to_analyze)) then 0
      else _analyze_sentiment analyzer text_to_analyze in
    <["stance" := VStr (_determine_stance score)]> (<["sentiment_score" := VFloat score]> d).

(** The score one iteration computes for a dict, and the dict with a score
    and its stance written. *)
Definition score_of (float_repr : float -> string)
  (analyzer : option (string -> float)) (d : gmap string value) : float :=
  if get_eq_str d "political_bucket" "center" then 0
  else
    let text_to_analyze :=
      format float_repr (default (VStr "") (d !! "title")) +:+ " " +:+
      format float_repr (default (VStr "") (d !! "content")) in
    if negb (PyStr.truthy (PyStr.strip text_to_analyze)) then 0
    else _analyze_sentiment analyzer text_to_analyze.

Definition with_classification (score : float) (d : gmap string value)
  : gmap string value :=
  <["stance" := VStr (_determine_stance score)]> (<["sentiment_score" := VFloat score]> d).

(** Score and stance of the dict fit together. *)
Definition consistent (d : gmap string value) : Prop :=
  exists score : float,
    d !! "sentiment_score" = Some (VFloat score)
    /\ d !! "stance" = Some (VStr (_determine_stance score)).

(** The string holds nothing but whitespace. *)
Fixpoint blank (s : string) : bool :=
  match s with
  | EmptyString => true
  | String c s' => PyStr.isspace c && blank s'
  end.

(** A field that is missing, or a string of whitespace only. *)
Definition blank_field (d : gmap string value) (key : string) : Prop :=
  match d !! key with
  | None => True
  | Some (VStr s) => blank s = true
  | Some (VFloat _) => False
  end.

(** The stance the fallback gives for [p] positive and [n] negative
    keywords found. *)
Definition fallback_stance (p n : nat) : string :=
  _determine_stance (PyFloat.py_max (-1) (PyFloat.py_min 1 (sub_n n (add_n p 0)))).

Definition stance_by_majority (p n : nat) : string :=
  if (n <? p)%nat then "IN_FAVOR" else if (p <? n)%nat then "AGAINST" else "NEUTRAL".

Definition fallback_table_ok : bool :=
  forallb (fun p => forallb (fun n => String.eqb (fallback_stance p n) (stance_by_majority p n))
                            (seq 0 19))
          (seq 0 16).

End OpinionClassifier.

(** ** article_scorer.py *)

Module ArticleScorer.

Local Open Scope float_scope.

(** A Python number: [int] or [float]. *)
Inductive num : Type :=
| Int (n : Z)
| Flt (f : float).

Definition to_float (x : num) : float :=
  match x with
  | Int n => PyFloat.of_int n
  | Flt f => f
  end.

(** [a + b] where [b] is a float. *)
Definition add (a : num) (b : float) : float := to_float a + b.

(** [a / b] (true division, [b] is never zero where it is called): the
    correctly rounded quotient, also for two ints. *)
Definition truediv (a b : num) : float :=
  match a, b with
  | Int (Zpos p), Int (Zpos q) =>
      SF2Prim (SFdiv prec emax (S754_finite false p 0) (S754_finite false q 0))
  | _, _ => to_float a / to_float b
  end.

(** spaCy's parse: a token with the attributes the scorer reads. *)
Inductive token : Type :=
| Token (text lower_ lemma_ : string) (pos : Z) (pos_ tag_ dep_ ent_type_ : string)
        (children : list token).

Definition text (t : token) : string := let 'Token x _ _ _ _ _ _ _ _ := t in x.
Definition lower_ (t : token) : string := let 'Token _ x _ _ _ _ _ _ _ := t in x.
Definition lemma_ (t : token) : string := let 'Token _ _ x _ _ _ _ _ _ := t in x.
Definition pos (t : token) : Z := let 'Token _ _ _ x _ _ _ _ _ := t in x.
Definition pos_ (t : token) : string := let 'Token _ _ _ _ x _ _ _ _ := t in x.
Definition tag_ (t : token) : string := let 'Token _ _ _ _ _ x _ _ _ := t in x.
Definition dep_ (t : token) : string := let 'Token _ _ _ _ _ _ x _ _ := t in x.
Definition ent_type_ (t : token) : string := let 'Token _ _ _ _ _ _ _ x _ := t in x.
Definition children (t : token) : list token := let 'Token _ _ _ _ _ _ _ _ x := t in x.

(** A sentence: its tokens and its root. *)
Record span : Type := { span_tokens : list token; root : token }.

(** A document: all its tokens, and its sentences. *)
Record doc : Type := { doc_tokens : list token; sents : list span }.

Definition ABSOLUTIST_WORDS : list string :=
  ["always"; "never"; "undeniably"; "indisputable"; "worst"; "best";
   "disastrous"; "perfect"; "everyone"; "nobody"; "must"; "impossible"].

Definition IMPERATIVE_TRIGGERS : list string :=
  ["demand"; "join"; "stop"; "sign"; "donate"; "refuse"; "stand"; "fight"; "wake"].

(** [x in words] *)
Definition mem (x : string) (words : list string) : bool :=
  existsb (String.eqb x) words.

(** [doc.count_by(POS).get(p, 0)] *)
Definition count_pos (d : doc) (p : Z) : Z :=
  Z.of_nat (length (filter (fun t => pos t = p) (doc_tokens d))).

Definition _normalize (value max_val : num) (weight : Z) : float :=
  let normalized := PyFloat.py_min (truediv value max_val) 1 in
  PyFloat.round1 (normalized * PyFloat.of_int weight).

Definition metric_subjectivity (d : doc) (weight : Z) : num :=
  let adj := (count_pos d 84 + count_pos d 86)%Z in
  let fact := (count_pos d 92 + count_pos d 100)%Z in
  if (fact =? 0)%Z then Int 0
  else
    let ratio := truediv (Int adj) (Int fact) in
    Flt (_normalize (Flt ratio) (Flt 0.25) weight).

Definition speaking_verbs : list string :=
  ["said"; "claimed"; "stated"; "argued"; "told"].

(** The subjects added to [sources] for one token. *)
Definition token_sources (t : token) : gset string :=
  if mem (lemma_ t) speaking_verbs then
    list_to_set
      (map text
         (filter (fun child => dep_ child = "nsubj"
                               /\ (ent_type_ child = "PERSON" \/ ent_type_ child = "ORG"))
                 (children t)))
  else ∅.

Definition collect_sources (d : doc) : gset string :=
  ⋃ (map (fun sent => ⋃ (map token_sources (span_tokens sent))) (sents d)).

Definition metric_attribution_balance (d : doc) (weight : Z) : float :=
  let unique_sources := size (collect_sources d) in
  let score :=
    match unique_sources with
    | 0%nat => 1
    | 1%nat => 0.8
    | 2%nat => 0.4
    | _ => 0
    end in
  PyFloat.round1 (score * PyFloat.of_int weight).

Definition metric_absolutism (d : doc) (weight : Z) : float :=
  let count :=
    Z.of_nat (length (filter (fun t => mem (lower_ t) ABSOLUTIST_WORDS = true)
                             (doc_tokens d))) in
  _normalize (Int count) (Int 5) weight.

Definition is_call_to_action (sent : span) : bool :=
  let root := root sent in
  (String.eqb (pos_ root) "VERB" && String.eqb (tag_ root) "VB")
  || mem (lemma_ root) IMPERATIVE_TRIGGERS.

Definition metric_call_to_action (d : doc) (weight : Z) : float :=
  let cta_count :=
    Z.of_nat (length (filter (fun s => is_call_to_action s = true) (sents d))) in
  _normalize (Int cta_count) (Int 2) weight.

(** The value of the key ["details"]. *)
Inductive details_t : Type :=
| Mocked (msg : string)
| Details (subjectivity : num) (attribution absolutism cta : float).

Record result : Type :=
  { bias_score_1_to_10 : float; details : details_t }.

(** [self.nlp] is [None] or spaCy's pipeline, a function from text to a
    parsed document. *)
Definition analyze_article (nlp : option (string -> doc)) (text : string) : result :=
  match nlp with
  | None => {| bias_score_1_to_10 := 5; details := Mocked "Mocked (Spacy Missing)" |}
  | Some nlp =>
      let d := nlp (PyStr.slice_to 5000 text) in
      let b1 := metric_subjectivity d 30 in
      let b2 := metric_attribution_balance d 30 in
      let b3 := metric_absolutism d 20 in
      let b4 := metric_call_to_action d 20 in
      let total_bias := add b1 b2 + b3 + b4 in
      let score := PyFloat.round1 (total_bias / 10) in
      let score := PyFloat.py_max 1 (PyFloat.py_min 10 score) in
      {| bias_score_1_to_10 := score; details := Details b1 b2 b3 b4 |}
  end.

(** [score_article(article_dict)]: the title and the content joined by
    [" . "], then [analyze_article]. [float_repr] formats a field that is
    not a string. *)
Definition score_article (float_repr : float -> string) (nlp : option (string -> doc))
  (article_dict : gmap string value) : result :=
  let text :=
    OpinionClassifier.format float_repr (default (VStr "") (article_dict !! "title"))
    +:+ " . " +:+
    OpinionClassifier.format float_repr (default (VStr "") (article_dict !! "content")) in
  analyze_article nlp text.

(** The sub-score of [_normalize(count, max_val, weight)] for a count that
    reaches [max_val]. *)
(** The sub-scores by count, for the weights the scorer uses. *)
Definition attribution_by_sources (unique_sources : nat) : float :=
  match unique_sources with
  | 0%nat => 30
  | 1%nat => 24
  | 2%nat => 12
  | _ => 0
  end.

Definition absolutism_by_count (count : nat) : float :=
  match count with
  | 0%nat => 0
  | 1%nat => 4
  | 2%nat => 8
  | 3%nat => 12
  | 4%nat => 16
  | _ => 20
  end.

Definition cta_by_count (cta_count : nat) : float :=
  match cta_count with
  | 0%nat => 0
  | 1%nat => 10
  | _ => 20
  end.

Definition absolutist_tokens (d : doc) : list token :=
  filter (fun t => mem (lower_ t) ABSOLUTIST_WORDS = true) (doc_tokens d).

Definition calls_to_action (d : doc) : list span :=
  filter (fun s => is_call_to_action s = true) (sents d).

(** No token of any sentence is a speaking verb. *)
Definition no_speaking_verb (d : doc) : Prop :=
  forall sent t, sent ∈ sents d -> t ∈ span_tokens sent ->
                 mem (lemma_ t) speaking_verbs = false.

Definition saturated_from (max_val weight : Z) (full : float) (upto : nat) : bool :=
  forallb (fun k => PrimFloat.Leibniz.eqb
                      (_normalize (Int (max_val + Z.of_nat k)) (Int max_val) weight) full)
          (seq 0 upto).

End ArticleScorer.

(** ** news_gatherer.py *)

Module NewsGatherer.

(** What feedparser hands over: every attribute of an entry may be
    missing. An item of [media_content] or [media_thumbnail] is
    represented by its ['url'], when it has one. *)
Record enclosure : Type :=
  { enc_type : option string; enc_href : option string }.

Record entry : Type :=
  { title : option string;
    published : option string;
    updated : option string;
    summary : option string;
    description : option string;
    link : option string;
    media_content : option (list (option string));
    media_thumbnail : option (list (option string));
    enclosures : option (list enclosure) }.

Record feed_data : Type :=
  { feed_title : option string;   (* [feed_data.feed.title], when both exist *)
    entries : list entry }.

(** [if not image_url] *)
Definition falsy (image_url : option string) : bool :=
  match image_url with
  | Some s => negb (PyStr.truthy s)
  | None => true
  end.

(** Step 1: [entry.media_content[0]['url']], inside [try/except: pass]. *)
Definition from_media_content (e : entry) : option string :=
  match media_content e with
  | Some (Some url :: _) => Some url
  | _ => None
  end.

(** Step 2: [entry.media_thumbnail[0]['url']], inside [try/except: pass];
    [image_url] keeps its value when the lookup fails. *)
Definition from_media_thumbnail (e : entry) (image_url : option string) : option string :=
  if falsy image_url then
    match media_thumbnail e with
    | Some (Some url :: _) => Some url
    | _ => image_url
    end
  else image_url.

(** Step 3: the loop over [entry.enclosures], left at the first enclosure
    whose type starts with [image/]. *)
Fixpoint first_image_enclosure (encs : list enclosure) (image_url : option string)
  : option string :=
  match encs with
  | [] => image_url
  | enc :: rest =>
      let enc_type := default "" (enc_type enc) in
      if PyStr.startswith enc_type "image/" then enc_href enc
      else first_image_enclosure rest image_url
  end.

Definition from_enclosures (e : entry) (image_url : option string) : option string :=
  if falsy image_url then
    match enclosures e with
    | Some encs => first_image_enclosure encs image_url
    | None => image_url
    end
  else image_url.

(** Step 4: the generated avatar. *)
Definition avatar_url (source_name bucket : string) : string :=
  let safe_name := PyStr.quote source_name in
  let bg_color := "eee" in
  let color := "333" in
  let '(bg_color, color) :=
    if String.eqb bucket "left" then ("e3f2fd", "0d47a1") else (bg_color, color) in
  let '(bg_color, color) :=
    if String.eqb bucket "right" then ("ffebee", "b71c1c") else (bg_color, color) in
  "https://ui-avatars.com/api/?name=" +:+ safe_name +:+ "&background=" +:+ bg_color
    +:+ "&color=" +:+ color +:+ "&size=128&bold=true&font-size=0.5&length=2".

Definition resolve_image (e : entry) (source_name bucket : string) : string :=
  let image_url := None in
  let image_url := match media_content e with
                   | Some _ => from_media_content e
                   | None => image_url
                   end in
  let image_url := from_media_thumbnail e image_url in
  let image_url := from_enclosures e image_url in
  match image_url with
  | Some url => if PyStr.truthy url then url else avatar_url source_name bucket
  | None => avatar_url source_name bucket
  end.

(** The resolution order, spelled out: the candidates in order, the
    first non-empty one wins, the avatar is the last resort. *)
Definition media_thumbnail_url (e : entry) : option string :=
  match media_thumbnail e with
  | Some (Some url :: _) => Some url
  | _ => None
  end.

Definition is_image_enclosure (enc : enclosure) : bool :=
  PyStr.startswith (default "" (enc_type enc)) "image/".

Definition enclosure_image_url (e : entry) : option string :=
  match enclosures e with
  | Some encs =>
      match List.find is_image_enclosure encs with
      | Some enc => enc_href enc
      | None => None
      end
  | None => None
  end.

Fixpoint first_nonempty (candidates : list (option string)) : option string :=
  match candidates with
  | [] => None
  | c :: rest => if falsy c then first_nonempty rest else c
  end.

Definition image_by_order (e : entry) (source_name bucket : string) : string :=
  default (avatar_url source_name bucket)
    (first_nonempty [from_media_content e; media_thumbnail_url e; enclosure_image_url e]).

(** The dict built for one entry. *)
Definition normalize_entry (e : entry) (source_name bucket source_url : string)
  : gmap string value :=
  let title := default "No Title" (title e) in
  let published_at := default (default "Unknown Date" (updated e)) (published e) in
  let content := default (default "No Content Available" (description e)) (summary e) in
  let link := default source_url (link e) in
  let image_url := resolve_image e source_name bucket in
  <["image" := VStr image_url]>
  (<["link" := VStr link]>
  (<["content" := VStr (PyStr.strip content)]>
  (<["published_at" := VStr published_at]>
  (<["political_bucket" := VStr bucket]>
  (<["source" := VStr (PyStr.strip source_name)]>
  (<["title" := VStr (PyStr.strip title)]> ∅)))))).

(** [source_url.split('/')[2].replace('www.', '')] *)
Definition domain_of (source_url : string) : outcome string :=
  match PyStr.split_on "/" source_url !! 2%nat with
  | Some host => Ret (PyStr.replace host "www." "")
  | None => Raise (Exception "IndexError")
  end.

Definition _normalize_articles (fd : feed_data) (bucket source_url : string)
  : outcome (list (gmap string value)) :=
  source_name ← match feed_title fd with
                | Some t => Ret t
                | None => domain_of source_url
                end;
  Ret (map (fun e => normalize_entry e source_name bucket source_url) (entries fd)).

Section Gatherer.

(** The module [feedparser] ([None] when the import failed):
    [feedparser.parse(url, agent=...)]. *)
Variable feedparser : option (string -> outcome feed_data).

(** [concurrent.futures.as_completed]: the submitted tasks in the order
    in which they finish. *)
Variable as_completed : list (string * string) -> list (string * string).

Definition _fetch_articles (url : string) : outcome (option feed_data) :=
  match feedparser with
  | None => Ret None
  | Some parse =>
      try_except (fd ← parse url; Ret (Some fd)) (fun e => Ret None)
  end.

Definition simple_bucket_name (bucket : string) : string :=
  if PyStr.contains "right" bucket then "right"
  else if PyStr.contains "left" bucket then "left"
  else "center".

(** [tasks]: one [(url, bucket)] per configured URL. *)
Definition build_tasks (sources : list (string * list string)) : list (string * string) :=
  flat_map (fun '(bucket, url_list) =>
              map (fun url => (url, simple_bucket_name bucket)) url_list)
           sources.

(** The body of the loop over the completed futures. *)
Definition handle_future (articles : list (gmap string value)) (task : string * string)
  : outcome (list (gmap string value)) :=
  let '(url, bucket) := task in
  try_except
    (feed_data ← _fetch_articles url;
     match feed_data with
     | Some fd =>
         normalized ← _normalize_articles fd bucket url;
         Ret (articles ++ normalized)
     | None => Ret articles
     end)
    (fun exc => Ret articles).

(** What one task adds to [self.articles]: the normalized articles of
    its feed, or nothing when the fetch gave no data or something raised. *)
Definition contribution (task : string * string) : list (gmap string value) :=
  let '(url, bucket) := task in
  match _fetch_articles url with
  | Ret (Some fd) =>
      match _normalize_articles fd bucket url with
      | Ret normalized => normalized
      | Raise _ => []
      end
  | _ => []
  end.

Fixpoint collect (tasks : list (string * string)) (articles : list (gmap string value))
  : outcome (list (gmap string value)) :=
  match tasks with
  | [] => Ret articles
  | task :: rest => articles' ← handle_future articles task; collect rest articles'
  end.

Definition STOP_WORDS : list string :=
  ["crisis"; "conflict"; "protest"; "war"; "news"; "report"; "update";
   "analysis"; "2020"; "2021"; "2022"; "breaking"].

Definition is_stop_word (k : string) : bool := existsb (String.eqb k) STOP_WORDS.

Definition raw_keywords_of (topic : string) : list string :=
  map PyStr.lower
      (filter (fun w => 3 < String.length w) (PyStr.split topic)).

Definition keywords_of (topic : string) : list string :=
  let raw_keywords := raw_keywords_of topic in
  let keywords := filter (fun k => is_stop_word k = false) raw_keywords in
  match keywords, raw_keywords with
  | [], _ :: _ => raw_keywords
  | [], [] => [PyStr.lower topic]
  | _, _ => keywords
  end.

(** [art.get(key, '')] on a dict whose values are strings. *)
Definition get_str (art : gmap string value) (key : string) : string :=
  match art !! key with
  | Some (VStr s) => s
  | _ => ""
  end.

Definition text_to_search (art : gmap string value) : string :=
  PyStr.lower (get_str art "title" +:+ " " +:+ get_str art "content").

Definition matches (keywords : list string) (art : gmap string value) : bool :=
  existsb (fun k => PyStr.contains k (text_to_search art)) keywords.

(** The keyword set, in the order of the specification: split,
    lowercase, keep the tokens longer than 3 characters, drop the stop
    words; fall back to the raw tokens, then to the whole topic. *)
Definition keywords_by_spec (topic : string) : list string :=
  let raw := filter (fun w => 3 < String.length w) (map PyStr.lower (PyStr.split topic)) in
  let kept := filter (fun k => is_stop_word k = false) raw in
  match kept with
  | [] => match raw with
          | [] => [PyStr.lower topic]
          | _ => raw
          end
  | _ => kept
  end.

(** The article passes the topic filter. *)
Definition passes (topic : option string) (art : gmap string value) : Prop :=
  match topic with
  | Some t => if PyStr.truthy t then matches (keywords_of t) art = true else True
  | None => True
  end.

Definition filter_by_topic (topic : option string) (articles : list (gmap string value))
  : list (gmap string value) :=
  match topic with
  | Some t =>
      if PyStr.truthy t
      then filter (fun art => matches (keywords_of t) art = true) articles
      else articles
  | None => articles
  end.

(** The sort key: 0 for a real image, 1 for a ui-avatars link. *)
Definition image_key (x : gmap string value) : nat :=
  if negb (PyStr.contains "ui-avatars.com" (get_str x "image")) then 0 else 1.

(** [list.sort(key=...)]: a stable sort, here by insertion. *)
Fixpoint insert_by {A : Type} (key : A -> nat) (x : A) (l : list A) : list A :=
  match l with
  | [] => [x]
  | y :: l' => if (key x <=? key y)%nat then x :: l else y :: insert_by key x l'
  end.

Definition sort_by {A : Type} (key : A -> nat) (l : list A) : list A :=
  foldr (insert_by key) [] l.

Definition gather_articles (sources : list (string * list string)) (topic : option string)
  : outcome (list (gmap string value)) :=
  let tasks := build_tasks sources in
  articles ← collect (as_completed tasks) [];
  let filtered := filter_by_topic topic articles in
  Ret (sort_by image_key filtered).

End Gatherer.

(** [_load_config]: [read_json] stands for [open(config_path)] followed by
    [json.load], the items of the object read in their order, or the
    exception raised. *)
Definition required_keys : list string :=
  ["right_leaning_sources"; "left_leaning_sources"; "center_sources"].

(** [key in data] *)
Definition has_key (data : list (string * list string)) (key : string) : bool :=
  existsb (fun item => String.eqb item.1 key) data.

(** [if key not in data: data[key] = []] *)
Definition add_missing (data : list (string * list string)) (key : string)
  : list (string * list string) :=
  if has_key data key then data else data ++ [(key, [])].

Definition _load_config (read_json : outcome (list (string * list string)))
  : outcome (list (string * list string)) :=
  match read_json with
  | Ret data => Ret (fold_left add_missing required_keys data)
  | Raise (Exception kind) =>
      if String.eqb kind "FileNotFoundError" then Ret []
      else if String.eqb kind "JSONDecodeError" then Ret []
      else Raise (Exception kind)
  end.

(** [NewsGatherer(config_path).gather_articles(topic)] *)
Definition gather_from_config
  (feedparser : option (string -> outcome feed_data))
  (as_completed : list (string * string) -> list (string * string))
  (read_json : outcome (list (string * list string))) (topic : option string)
  : outcome (list (gmap string value)) :=
  sources ← _load_config read_json;
  gather_articles feedparser as_completed sources topic.

(** Number of occurrences of a character. *)
Fixpoint count_char (c : ascii) (s : string) : nat :=
  match s with
  | EmptyString => 0
  | String a s' => (if Ascii.eqb a c then 1 else 0) + count_char c s'
  end.

(** None of the three image candidates of the entry is usable. *)
Definition no_image (e : entry) : Prop :=
  first_nonempty [from_media_content e; media_thumbnail_url e; enclosure_image_url e] = None.

Definition article_keys : gset string :=
  {["title"; "source"; "political_bucket"; "published_at"; "content"; "link"; "image"]}.

(** The image of an article as the resolution order describes it, written
    without the steps of the code: the URL of the first item of
    [media_content], the URL of the first item of [media_thumbnail], the
    link of the first enclosure of an [image/] type; the first of the
    three that is a non-empty string; failing that the avatar, made of
    the quoted source name and the colors of the bucket. *)
Definition media_content_url (e : entry) : option string :=
  match media_content e with
  | Some (item :: _) => item
  | _ => None
  end.

Fixpoint first_usable (candidates : list (option string)) : option string :=
  match candidates with
  | [] => None
  | Some (String c url) :: _ => Some (String c url)
  | _ :: rest => first_usable rest
  end.

Definition bucket_colors (bucket : string) : string * string :=
  if String.eqb bucket "right" then ("ffebee", "b71c1c")
  else if String.eqb bucket "left" then ("e3f2fd", "0d47a1")
  else ("eee", "333").

Definition avatar_by_spec (source_name bucket : string) : string :=
  "https://ui-avatars.com/api/?name=" +:+ PyStr.quote source_name
  +:+ "&background=" +:+ (bucket_colors bucket).1
  +:+ "&color=" +:+ (bucket_colors bucket).2
  +:+ "&size=128&bold=true&font-size=0.5&length=2".

Definition image_by_spec (e : entry) (source_name bucket : string) : string :=
  match first_usable [media_content_url e; media_thumbnail_url e; enclosure_image_url e] with
  | Some url => url
  | None => avatar_by_spec source_name bucket
  end.

(** The name of the source: the title of the feed, else the third of the
    pieces of the URL between its slashes, without its ["www."]. *)
Definition source_name_is (fd : feed_data) (source_url name : string) : Prop :=
  feed_title fd = Some name
  \/ (feed_title fd = None
      /\ exists host : string,
          PyStr.split_on "/" source_url !! 2%nat = Some host
          /\ name = PyStr.replace host "www." "").

(** The whitespace characters below 256, by their code points: tab to
    carriage return, the four separators, the space, the next line
    character and the no-break space. *)
Definition whitespace_codes : list N := [9; 10; 11; 12; 13; 28; 29; 30; 31; 32; 133; 160]%N.

Definition whitespace (c : ascii) : bool :=
  existsb (N.eqb (N_of_ascii c)) whitespace_codes.

Fixpoint only_spaces (s : string) : bool :=
  match s with
  | EmptyString => true
  | String c s' => whitespace c && only_spaces s'
  end.

Definition first_char (s : string) : option ascii :=
  match s with
  | EmptyString => None
  | String c _ => Some c
  end.

Fixpoint last_char (s : string) : option ascii :=
  match s with
  | EmptyString => None
  | String c EmptyString => Some c
  | String _ s' => last_char s'
  end.

(** [t] is [raw] without the whitespace at its two ends: [raw] is [t]
    between two runs of whitespace, and [t] neither starts nor ends with
    a whitespace character. *)
Definition trimmed_from (raw t : string) : Prop :=
  (exists before after : string,
      raw = before +:+ t +:+ after
      /\ only_spaces before = true /\ only_spaces after = true)
  /\ (forall c : ascii, first_char t = Some c -> whitespace c = false)
  /\ (forall c : ascii, last_char t = Some c -> whitespace c = false).

(** The bucket that a configuration key stands for. *)
Definition bucket_of_key (key bucket : string) : Prop :=
  (PyStr.contains "right" key = true /\ bucket = "right")
  \/ (PyStr.contains "right" key = false /\ PyStr.contains "left" key = true
      /\ bucket = "left")
  \/ (PyStr.contains "right" key = false /\ PyStr.contains "left" key = false
      /\ bucket = "center").

End NewsGatherer.

(** ** image_handler.py *)

Module ImageHandler.

Definition SOURCE_LOGOS : list (string * string) :=
  [("Fox News", "https://upload.wikimedia.org/wikipedia/commons/6/67/Fox_News_Channel_logo.svg");
   ("CNN", "https://upload.wikimedia.org/wikipedia/commons/b/b1/CNN.svg");
   ("MSNBC", "https://upload.wikimedia.org/wikipedia/commons/a/a2/MSNBC_Logo.svg");
   ("Reuters", "https://upload.wikimedia.org/wikipedia/commons/8/8d/Reuters_Logo.svg");
   ("Breitbart", "https://upload.wikimedia.org/wikipedia/commons/thumb/f/fe/Breitbart_News.svg/1200px-Breitbart_News.svg.png");
   ("BBC", "https://upload.wikimedia.org/wikipedia/commons/e/EB/BBC.svg");
   ("NPR", "https://upload.wikimedia.org/wikipedia/commons/d/d7/National_Public_Radio_logo.svg");
   ("AP News", "https://upload.wikimedia.org/wikipedia/commons/0/0c/Associated_Press_logo_2012.svg");
   ("The Guardian", "https://upload.wikimedia.org/wikipedia/commons/7/75/The_Guardian_2018.svg");
   ("default", "https://placehold.co/600x400?text=News+Article")].

Definition default_logo : string := "https://placehold.co/600x400?text=News+Article".

Record response : Type := { status_code : Z; body : string }.

Section Handler.

(** [requests.get(url, timeout=2.0, headers=...)] *)
Variable requests_get : string -> outcome response.

(** [re.search(<og:image pattern>, text, re.IGNORECASE)]: group 1 of the
    match, if there is one. *)
Variable og_image : string -> option string.

Definition scrape (article_url : string) : option string :=
  if PyStr.truthy article_url && PyStr.startswith article_url "http" then
    match requests_get article_url with
    | Ret r => if (status_code r =? 200)%Z then og_image (body r) else None
    | Raise _ => None
    end
  else None.

(** The loop over [SOURCE_LOGOS.items()], left at the first key found
    in the source name. *)
Fixpoint find_logo (logos : list (string * string)) (source_name : string)
  (image_url : option string) : option string :=
  match logos with
  | [] => image_url
  | (key, logo) :: rest =>
      if PyStr.contains (PyStr.lower key) (PyStr.lower source_name)
      then Some logo
      else find_logo rest source_name image_url
  end.

(** [get_article_image]: the image and the updated [_IMAGE_CACHE]. *)
Definition get_article_image (cache : gmap (string * string) string)
  (article_url source_name : string) : string * gmap (string * string) string :=
  let cache_key := (article_url, source_name) in
  match cache !! cache_key with
  | Some cached => (cached, cache)
  | None =>
      let image_url := scrape article_url in
      let image_url :=
        if NewsGatherer.falsy image_url
        then find_logo SOURCE_LOGOS source_name image_url
        else image_url in
      let image_url :=
        match image_url with
        | Some url => if PyStr.truthy url then url else default_logo
        | None => default_logo
        end in
      (image_url, <[cache_key := image_url]> cache)
  end.

(** No cached image is the empty string. *)
Definition cache_ok (cache : gmap (string * string) string) : Prop :=
  forall (k : string * string) (v : string), cache !! k = Some v -> v <> "".

(** A sequence of calls, starting from a given cache. *)
Fixpoint run_calls (cache : gmap (string * string) string)
  (calls : list (string * string)) : list string :=
  match calls with
  | [] => []
  | (article_url, source_name) :: rest =>
      let '(img, cache') := get_article_image cache article_url source_name in
      img :: run_calls cache' rest
  end.

End Handler.

(** The static images: the source logos and the generic placeholder. *)
Definition static_images : list string := map snd SOURCE_LOGOS.

End ImageHandler.

(** ** llm_prompt_builder.py *)

Module LLMPromptBuilder.

Definition nl : string := String "010" EmptyString.

(** [str(i)] for the index of [enumerate]. *)
Definition str_of_nat (i : nat) : string := NilZero.string_of_uint (Nat.to_uint i).

Definition _get_system_instructions : string :=
  "ROLE: You are a senior newspaper editor. Your task is to synthesize multiple narratives "
  +:+ "into a single, high-quality, neutral editorial summary." +:+ nl +:+ nl
  +:+ "TONE GUIDELINES:" +:+ nl
  +:+ "- Neutral, precise, and calm." +:+ nl
  +:+ "- Editorial style, not academic. Avoid jargon." +:+ nl
  +:+ "- No moralizing language (e.g., avoid 'unfortunately', 'rightly')." +:+ nl
  +:+ "- Do NOT strictly declare one side correct." +:+ nl
  +:+ "- Do NOT mention 'bias', 'sentiment', or 'AI'." +:+ nl
  +:+ "- Use 'The pro-[topic] narrative emphasizes...' or 'Critics argue...' rather than 'User 1 said...'.".

Definition _get_output_format_instructions : string :=
  "OUTPUT INSTRUCTIONS:" +:+ nl
  +:+ "Produce a written summary with the following FOUR clearly labeled sections. "
  +:+ "IMPORTANT: Do NOT use any markdown formatting (like *, #, **). Output strictly plain text. "
  +:+ "Do NOT make titles bold. Do NOT use bullet points unless creating a list." +:+ nl +:+ nl
  +:+ "1. COMMON GROUND" +:+ nl
  +:+ "   - Identify facts or points agreed upon by both groups." +:+ nl
  +:+ "   - If no obvious agreement, note the shared subject matter factually." +:+ nl +:+ nl
  +:+ "2. THE CASE IN FAVOR" +:+ nl
  +:+ "   - Summarize the arguments and focus of the IN FAVOR group." +:+ nl
  +:+ "   - Attribute these views generally to proponents." +:+ nl +:+ nl
  +:+ "3. THE CASE AGAINST" +:+ nl
  +:+ "   - Summarize the arguments and focus of the AGAINST group." +:+ nl
  +:+ "   - Attribute these views generally to critics or opponents." +:+ nl +:+ nl
  +:+ "4. OBSERVATIONS ON EMPHASIS" +:+ nl
  +:+ "   - Briefly note what each side specifically highlights or omits." +:+ nl
  +:+ "   - Example: 'Supporters focus on economic growth, while opponents focus on environmental risk.'" +:+ nl
  +:+ "   - Keep this descriptive.".

Section Builder.

(** [str(f)] on a float, for a field that is not a string. *)
Variable float_repr : float -> string.

(** The line of one article: [f"{i}. [{source} | {bucket}] Summary: {points}\n"]. *)
Definition article_line (i : nat) (art : gmap string value) : string :=
  let source := default (VStr "Unknown Source") (art !! "source") in
  let bucket := default (VStr "Unknown") (art !! "political_bucket") in
  let points := default (default (VStr "") (art !! "title")) (art !! "key_points") in
  str_of_nat i +:+ ". [" +:+ OpinionClassifier.format float_repr source +:+ " | "
  +:+ OpinionClassifier.format float_repr bucket +:+ "] Summary: "
  +:+ OpinionClassifier.format float_repr points +:+ nl.

(** [for i, art in enumerate(arts, i): section += ...] *)
Fixpoint add_lines (i : nat) (arts : list (gmap string value)) (section : string) : string :=
  match arts with
  | [] => section
  | art :: rest => add_lines (S i) rest (section +:+ article_line i art)
  end.

Definition add_group (arts : list (gmap string value)) (section : string) : string :=
  match arts with
  | [] => section +:+ "(No articles in this group)" +:+ nl
  | _ => add_lines 1 arts section
  end.

Definition _format_input_data (topic : string)
  (in_favor against : list (gmap string value)) : string :=
  let section := "TOPIC: " +:+ topic +:+ nl +:+ nl +:+ "INPUT DATA:" +:+ nl in
  let section := section +:+ "--- GROUP A: ARTICLES IN FAVOR (SUPPORTING) ---" +:+ nl in
  let section := add_group in_favor section in
  let section := section +:+ nl +:+ "--- GROUP B: ARTICLES AGAINST (OPPOSING) ---" +:+ nl in
  let section := add_group against section in
  section.

Definition build_prompt (topic : string)
  (in_favor_articles against_articles : list (gmap string value)) : string :=
  let system_instructions := _get_system_instructions in
  let input_section := _format_input_data topic in_favor_articles against_articles in
  let output_format := _get_output_format_instructions in
  system_instructions +:+ nl +:+ nl +:+ input_section +:+ nl +:+ nl +:+ output_format.

End Builder.

(** The lines of a group, one per article, numbered from [i]. *)
Fixpoint lines_from (float_repr : float -> string) (i : nat)
  (arts : list (gmap string value)) : string :=
  match arts with
  | [] => EmptyString
  | art :: rest => article_line float_repr i art +:+ lines_from float_repr (S i) rest
  end.

(** The text of a group: its lines, or the notice that it is empty. *)
Definition group_text (float_repr : float -> string) (arts : list (gmap string value))
  : string :=
  match arts with
  | [] => "(No articles in this group)" +:+ nl
  | _ => lines_from float_repr 1 arts
  end.

(** The two articles show the same to the prompt: same source, bucket,
    key points and title. *)
Definition same_for_prompt (a b : gmap string value) : Prop :=
  a !! "source" = b !! "source"
  /\ a !! "political_bucket" = b !! "political_bucket"
  /\ a !! "key_points" = b !! "key_points"
  /\ a !! "title" = b !! "title".

End LLMPromptBuilder.

(** ** Sample data

    Concrete feeds, heaps and documents on which the definitions above are
    run. *)

(** A heap in which the list at 1 holds the dict at 2 twice and the dict
    at 3 once. *)
Definition sample_heap : gmap loc object :=
  <[1%positive := OList [2%positive; 3%positive; 2%positive]]>
  (<[2%positive := ODict (<["political_bucket" := VStr "center"]>
                          (<["title" := VStr "A terrible crisis"]> ∅))]>
  (<[3%positive := ODict (<["political_bucket" := VStr "left"]>
                          (<["title" := VStr "good and great"]> ∅))]> ∅)).

(** A feed whose only entry has the title ["ukr"] and the summary ["aine"]. *)
Definition split_word_entry : NewsGatherer.entry :=
  {| NewsGatherer.title := Some "ukr";
     NewsGatherer.published := Some " Mon, 01 Jan 2024 ";
     NewsGatherer.updated := None;
     NewsGatherer.summary := Some "aine";
     NewsGatherer.description := None;
     NewsGatherer.link := None;
     NewsGatherer.media_content := None;
     NewsGatherer.media_thumbnail := None;
     NewsGatherer.enclosures := None |}.

Definition split_word_feed : NewsGatherer.feed_data :=
  {| NewsGatherer.feed_title := Some "Daily"; NewsGatherer.entries := [split_word_entry] |}.

Definition split_word_article : gmap string value :=
  NewsGatherer.normalize_entry split_word_entry "Daily" "left" "https://daily.example/rss".

Definition one_source : list (string * list string) :=
  [("left_leaning_sources", ["https://daily.example/rss"])].

(** A parser that answers for one URL and times out for every other. *)
Definition flaky_parser (url : string) : outcome NewsGatherer.feed_data :=
  if String.eqb url "https://daily.example/rss" then Ret split_word_feed
  else Raise (Exception "timeout").

Definition two_sources : list (string * list string) :=
  [("right_leaning_sources", ["https://down.example/rss"]);
   ("left_leaning_sources", ["https://daily.example/rss"])].

(** A feed without a title, whose entries carry an empty media URL, a
    thumbnail, an image enclosure or nothing at all. *)
Definition media_feed : NewsGatherer.feed_data :=
  {| NewsGatherer.feed_title := None;
     NewsGatherer.entries :=
       [ {| NewsGatherer.title := Some "One"; NewsGatherer.published := None;
            NewsGatherer.updated := None; NewsGatherer.summary := None;
            NewsGatherer.description := None; NewsGatherer.link := None;
            NewsGatherer.media_content := Some [Some EmptyString];
            NewsGatherer.media_thumbnail := Some [Some "https://img.example/t.png"];
            NewsGatherer.enclosures := None |};
         {| NewsGatherer.title := Some "Two"; NewsGatherer.published := None;
            NewsGatherer.updated := None; NewsGatherer.summary := None;
            NewsGatherer.description := None; NewsGatherer.link := None;
            NewsGatherer.media_content := Some [];
            NewsGatherer.media_thumbnail := None;
            NewsGatherer.enclosures :=
              Some [ {| NewsGatherer.enc_type := Some "audio/mpeg";
                        NewsGatherer.enc_href := Some "https://img.example/a.mp3" |};
                     {| NewsGatherer.enc_type := Some "image/jpeg";
                        NewsGatherer.enc_href := None |} ] |};
         {| NewsGatherer.title := None; NewsGatherer.published := None;
            NewsGatherer.updated := None; NewsGatherer.summary := None;
            NewsGatherer.description := None; NewsGatherer.link := None;
            NewsGatherer.media_content := None;
            NewsGatherer.media_thumbnail := None;
            NewsGatherer.enclosures := None |} ] |}.

Definition media_articles : list (gmap string value) :=
  map (fun e => NewsGatherer.normalize_entry e "news.example" "right"
                  "https://www.news.example/feed")
      (NewsGatherer.entries media_feed).

(** The parse of ["John said taxes always rise. Stop them"]. *)
Definition sample_token (text lemma : string) (pos : Z) (pos_ tag dep ent : string)
  (children : list ArticleScorer.token) : ArticleScorer.token :=
  ArticleScorer.Token text (PyStr.lower text) lemma pos pos_ tag dep ent children.

Definition sample_doc : ArticleScorer.doc :=
  let john := sample_token "John" "John" 96 "PROPN" "NNP" "nsubj" "PERSON" [] in
  let said := sample_token "said" "said" 100 "VERB" "VBD" "ROOT" "" [john] in
  let taxes := sample_token "taxes" "tax" 92 "NOUN" "NNS" "nsubj" "" [] in
  let always := sample_token "always" "always" 86 "ADV" "RB" "advmod" "" [] in
  let rise := sample_token "rise" "rise" 100 "VERB" "VBP" "ccomp" "" [taxes; always] in
  let stop := sample_token "Stop" "stop" 100 "VERB" "VB" "ROOT" "" [] in
  let them := sample_token "them" "they" 95 "PRON" "PRP" "dobj" "" [] in
  {| ArticleScorer.doc_tokens := [john; said; taxes; always; rise; stop; them];
     ArticleScorer.sents :=
       [ {| ArticleScorer.span_tokens := [john; said; taxes; always; rise];
            ArticleScorer.root := said |};
         {| ArticleScorer.span_tokens := [stop; them]; ArticleScorer.root := stop |} ] |}.

(** An article that names the topic in its content only. *)
Definition content_only_article : gmap string value :=
  <["content" := VStr "Talks continue in Ukraine today"]>
  (<["title" := VStr "Diplomats meet again"]> ∅).

(** An article with a blank title and no content, and a heap whose list
    holds it. *)
Definition blank_article : gmap string value :=
  <["political_bucket" := VStr "right"]> (<["title" := VStr "   "]> ∅).

Definition blank_heap : gmap loc object :=
  <[1%positive := OList [2%positive]]> (<[2%positive := ODict blank_article]> ∅).

(** An entry without any media field. *)
Definition bare_entry : NewsGatherer.entry :=
  {| NewsGatherer.title := Some "Plain"; NewsGatherer.published := None;
     NewsGatherer.updated := None; NewsGatherer.summary := None;
     NewsGatherer.description := None; NewsGatherer.link := None;
     NewsGatherer.media_content := None;
     NewsGatherer.media_thumbnail := None;
     NewsGatherer.enclosures := None |}.

(** A feed whose first entry has a media content and a thumbnail, and
    whose second entry has no media. *)
Definition pictured_entry : NewsGatherer.entry :=
  {| NewsGatherer.title := Some " Budget vote "; NewsGatherer.published := None;
     NewsGatherer.updated := Some "2024-01-01 "; NewsGatherer.summary := None;
     NewsGatherer.description := Some "The vote is on Monday. "; NewsGatherer.link := None;
     NewsGatherer.media_content := Some [Some "https://img.example/c.png"];
     NewsGatherer.media_thumbnail := Some [Some "https://img.example/t.png"];
     NewsGatherer.enclosures := None |}.

Definition pictured_feed : NewsGatherer.feed_data :=
  {| NewsGatherer.feed_title := Some "Fox News";
     NewsGatherer.entries := [pictured_entry; bare_entry] |}.

Definition pictured_articles : list (gmap string value) :=
  map (fun e => NewsGatherer.normalize_entry e "Fox News" "left" "https://fox.example/rss")
      (NewsGatherer.entries pictured_feed).

(** One article before and after classification. *)
Definition listed_article : gmap string value :=
  <["source" := VStr "Daily"]>
  (<["content" := VStr "The bill passed on Monday"]>
  (<["title" := VStr "Tax cut passes"]> ∅)).

Definition listed_article_classified : gmap string value :=
  <["stance" := VStr "IN_FAVOR"]> (<["sentiment_score" := VFloat 0.6]> listed_article).

(** * Properties *)

(** ** Facts on float comparison *)

Section FloatOrder.
Local Open Scope float_scope.

Lemma SFcompare_antisym (x y : spec_float) :
  SFcompare y x = option_map CompOpp (SFcompare x y).
Proof.
  destruct x as [sx|sx| |sx mx ex], y as [sy|sy| |sy my ey]; simpl;
    try reflexivity; try (destruct sx; reflexivity); try (destruct sy; reflexivity);
    try (destruct sx, sy; reflexivity).
  f_equal.
  rewrite (Z.compare_antisym ex ey), !Pos.compare_cont_spec.
  rewrite (Pos.compare_antisym mx my).
  destruct sx, sy; simpl; try reflexivity;
    destruct (ex ?= ey)%Z; simpl; try reflexivity;
    destruct (mx ?= my)%positive; reflexivity.
Qed.
Lemma ltb_leb (x y : float) : (x <? y) = true -> (x <=? y) = true.
Proof.
  rewrite ltb_spec, leb_spec. unfold SFltb, SFleb.
  destruct (SFcompare _ _) as [[]|]; congruence.
Qed.

Lemma ltb_not_leb (x y : float) : (x <? y) = true -> (y <=? x) = false.
Proof.
  rewrite ltb_spec, leb_spec. unfold SFltb, SFleb.
  rewrite (SFcompare_antisym (Prim2SF x) (Prim2SF y)).
  destruct (SFcompare _ _) as [[]|]; simpl; congruence.
Qed.

Lemma leb_neg_const (s : float) :
  (s <=? -0.15) = true -> PyFloat.negative (Prim2SF s) = true.
Proof.
  rewrite leb_spec.
  set (c := Prim2SF (-0.15)). vm_compute in c. subst c.
  destruct (Prim2SF s) as [[]|[]| |[] m e];
    unfold SFleb, SFcompare, PyFloat.negative; congruence.
Qed.

Lemma negative_not_above (s : float) :
  PyFloat.negative (Prim2SF s) = true -> (0.15 <=? s) = false.
Proof.
  rewrite leb_spec.
  set (c := Prim2SF 0.15). vm_compute in c. subst c.
  destruct (Prim2SF s) as [[]|[]| |[] m e];
    unfold SFleb, SFcompare, PyFloat.negative; congruence.
Qed.

Lemma clamp_bounds (lo hi s : float) :
  (lo <=? lo) = true -> (hi <=? hi) = true -> (lo <=? hi) = true ->
  (lo <=? PyFloat.py_max lo (PyFloat.py_min hi s)) = true
  /\ (PyFloat.py_max lo (PyFloat.py_min hi s) <=? hi) = true.
Proof.
  intros Hlo Hhi Hle. unfold PyFloat.py_max, PyFloat.py_min.
  destruct (s <? hi) eqn:Hs.
  - destruct (lo <? s) eqn:Hl; auto using ltb_leb.
  - destruct (lo <? hi) eqn:Hl; auto.
Qed.

Lemma clamp_cases (lo hi s : float) :
  let r := PyFloat.py_max lo (PyFloat.py_min hi s) in
  r = lo \/ r = hi \/ (r = s /\ (lo <? s) = true /\ (s <? hi) = true).
Proof.
  unfold PyFloat.py_max, PyFloat.py_min.
  destruct (s <? hi) eqn:Hs.
  - destruct (lo <? s) eqn:Hl; auto.
  - destruct (lo <? hi) eqn:Hl; auto.
Qed.

(** Comparison with a positive finite constant. *)
Lemma SFcompare_eq_finite (m : positive) (e : Z) (x : spec_float) :
  SFcompare (S754_finite false m e) x = Some Eq -> x = S754_finite false m e.
Proof.
  destruct x as [sx|sx| |sx mx ex]; unfold SFcompare;
    try (destruct sx; discriminate); try discriminate.
  destruct sx; [discriminate|].
  destruct (Z.compare_spec e ex) as [He|He|He]; try discriminate.
  rewrite Pos.compare_cont_spec. cbn [Pos.switch_Eq].
  destruct (Pos.compare_spec m mx) as [Hm|Hm|Hm]; try discriminate.
  intros _. now subst.
Qed.

Lemma leb_not_ltb_eq (c s : float) (m : positive) (e : Z) :
  Prim2SF c = S754_finite false m e ->
  (c <=? s) = true -> (c <? s) = false -> s = c.
Proof.
  intros Hc. rewrite leb_spec, ltb_spec, Hc. unfold SFleb, SFltb.
  destruct (SFcompare (S754_finite false m e) (Prim2SF s)) as [[]|] eqn:Hcmp;
    try discriminate.
  intros _ _. apply Prim2SF_inj. rewrite Hc. now apply SFcompare_eq_finite.
Qed.

Lemma leb_not_ltb_eq_r (c s : float) (m : positive) (e : Z) :
  Prim2SF c = S754_finite false m e ->
  (s <=? c) = true -> (s <? c) = false -> s = c.
Proof.
  intros Hc. rewrite leb_spec, ltb_spec, Hc. unfold SFleb, SFltb.
  pose proof (SFcompare_antisym (Prim2SF s) (S754_finite false m e)) as Hanti.
  destruct (SFcompare (Prim2SF s) (S754_finite false m e)) as [[]|] eqn:Hcmp;
    try discriminate.
  intros _ _. apply Prim2SF_inj. rewrite Hc. now apply SFcompare_eq_finite.
Qed.

Lemma ltb_below (a b s : float) (ma mb : positive) (ea eb : Z) :
  Prim2SF a = S754_finite false ma ea -> Prim2SF b = S754_finite false mb eb ->
  (ea < eb)%Z -> (s <? a) = true -> (s <? b) = true.
Proof.
  intros Ha Hb Hlt. rewrite !ltb_spec, Ha, Hb. unfold SFltb, SFcompare.
  destruct (Prim2SF s) as [[]|[]| |[] m e]; try congruence.
  destruct (Z.compare_spec e ea), (Z.compare_spec e eb); try lia; congruence.
Qed.

Lemma ltb_above (a b s : float) (ma mb : positive) (ea eb : Z) :
  Prim2SF a = S754_finite false ma ea -> Prim2SF b = S754_finite false mb eb ->
  (ea < eb)%Z -> (b <? s) = true -> (a <? s) = true.
Proof.
  intros Ha Hb Hlt. rewrite !ltb_spec, Ha, Hb. unfold SFltb, SFcompare.
  destruct (Prim2SF s) as [[]|[]| |[] m e]; try congruence.
  destruct (Z.compare_spec eb e), (Z.compare_spec ea e); try lia; congruence.
Qed.

Lemma ltb_asym (x y : float) : (x <? y) = true -> (y <? x) = false.
Proof.
  intros H. destruct (y <? x) eqn:Hyx; [|reflexivity].
  apply ltb_leb in Hyx. apply ltb_not_leb in H. congruence.
Qed.

(** What [max(1.0, min(10.0, s))] is, by the position of [s]. *)
Lemma clamp_1_10 (s : float) :
  ((s <? 1) = true -> PyFloat.py_max 1 (PyFloat.py_min 10 s) = 1)
  /\ ((10 <? s) = true -> PyFloat.py_max 1 (PyFloat.py_min 10 s) = 10)
  /\ ((1 <=? s) = true -> (s <=? 10) = true ->
      PyFloat.py_max 1 (PyFloat.py_min 10 s) = s).
Proof.
  assert (H1 : Prim2SF 1 = S754_finite false 4503599627370496 (-52))
    by (vm_compute; reflexivity).
  assert (H10 : Prim2SF 10 = S754_finite false 5629499534213120 (-49))
    by (vm_compute; reflexivity).
  unfold PyFloat.py_max, PyFloat.py_min. split; [|split].
  - intros Hs.
    rewrite (ltb_below 1 10 s _ _ _ _ H1 H10 ltac:(lia) Hs), (ltb_asym _ _ Hs).
    reflexivity.
  - intros Hs. rewrite (ltb_asym _ _ Hs). reflexivity.
  - intros Hlo Hhi. destruct (s <? 10) eqn:Hlt.
    + destruct (1 <? s) eqn:Hgt; [reflexivity|].
      symmetry. exact (leb_not_ltb_eq 1 s _ _ H1 Hlo Hgt).
    + rewrite (leb_not_ltb_eq_r 10 s _ _ H10 Hhi Hlt). reflexivity.
Qed.

End FloatOrder.

(** ** The stance thresholds *)

Section Stance.
Local Open Scope float_scope.
Import OpinionClassifier.

Lemma stance_in_favor (s : float) :
  _determine_stance s = "IN_FAVOR" <-> (0.15 <=? s) = true.
Proof.
  unfold _determine_stance.
  destruct (0.15 <=? s); [tauto|].
  destruct (s <=? -0.15); split; discriminate.
Qed.

Lemma stance_against (s : float) :
  _determine_stance s = "AGAINST" <-> (s <=? -0.15) = true.
Proof.
  unfold _determine_stance.
  destruct (0.15 <=? s) eqn:Hhi.
  - split; [discriminate|].
    intros Hlo%leb_neg_const%negative_not_above. congruence.
  - destruct (s <=? -0.15); split; congruence.
Qed.

Lemma stance_neutral (s : float) :
  _determine_stance s = "NEUTRAL"
  <-> (0.15 <=? s) = false /\ (s <=? -0.15) = false.
Proof.
  unfold _determine_stance.
  destruct (0.15 <=? s); [split; [discriminate|intros []; discriminate]|].
  destruct (s <=? -0.15); split; try discriminate; try tauto.
  intros []; discriminate.
Qed.

Lemma stance_between (s : float) :
  (-0.15 <? s) = true -> (s <? 0.15) = true -> _determine_stance s = "NEUTRAL".
Proof.
  intros Hlo%ltb_not_leb Hhi%ltb_not_leb. apply stance_neutral. auto.
Qed.

(** C3: [_determine_stance] answers IN_FAVOR exactly when the score is at
    least 0.15, AGAINST exactly when it is at most -0.15, and NEUTRAL in
    every other case; 0.15 itself is IN_FAVOR, -0.15 itself is AGAINST,
    and every score strictly between the two thresholds is NEUTRAL. *)
Theorem determine_stance_thresholds (s : float) :
  (_determine_stance s = "IN_FAVOR" <-> (0.15 <=? s) = true)
  /\ (_determine_stance s = "AGAINST" <-> (s <=? -0.15) = true)
  /\ (_determine_stance s = "NEUTRAL"
      <-> (0.15 <=? s) = false /\ (s <=? -0.15) = false)
  /\ _determine_stance 0.15 = "IN_FAVOR"
  /\ _determine_stance (-0.15) = "AGAINST"
  /\ ((-0.15 <? s) = true -> (s <? 0.15) = true -> _determine_stance s = "NEUTRAL").
Proof.
  split; [apply stance_in_favor|].
  split; [apply stance_against|].
  split; [apply stance_neutral|].
  split; [reflexivity|].
  split; [reflexivity|].
  apply stance_between.
Qed.

End Stance.

(** ** The bias score *)

Section Scorer.
Local Open Scope float_scope.
Import ArticleScorer.

Lemma one_decimal_1 : PyFloat.one_decimal 1.
Proof. exists false, 10%Z. vm_compute. reflexivity. Qed.

Lemma one_decimal_10 : PyFloat.one_decimal 10.
Proof. exists false, 100%Z. vm_compute. reflexivity. Qed.

(** A value of [round(x, 1)] above 1 comes from a finite [x]. *)
Lemma round1_one_decimal (x : float) :
  (1 <? PyFloat.round1 x) = true -> (PyFloat.round1 x <? 10) = true ->
  PyFloat.one_decimal (PyFloat.round1 x).
Proof.
  unfold PyFloat.round1. intros Hlo Hhi.
  destruct (Prim2SF x) as [sx|sx| |sx m e] eqn:Hx.
  - rewrite ltb_spec, Hx in Hlo. destruct sx; vm_compute in Hlo; discriminate.
  - destruct sx.
    + rewrite ltb_spec, Hx in Hlo. vm_compute in Hlo; discriminate.
    + rewrite ltb_spec, Hx in Hhi. vm_compute in Hhi; discriminate.
  - rewrite ltb_spec, Hx in Hlo. vm_compute in Hlo; discriminate.
  - eexists _, _. reflexivity.
Qed.

Lemma clamped_one_decimal (x : float) :
  PyFloat.one_decimal (PyFloat.py_max 1 (PyFloat.py_min 10 (PyFloat.round1 x))).
Proof.
  destruct (clamp_cases 1 10 (PyFloat.round1 x)) as [->|[->|(-> & Hlo & Hhi)]];
    auto using one_decimal_1, one_decimal_10, round1_one_decimal.
Qed.

Lemma slice_to_prefix (n : nat) (s : string) :
  exists rest, s = PyStr.slice_to n s +:+ rest.
Proof.
  revert s. induction n as [|n IH]; intros s; [exists s; reflexivity|].
  destruct s as [|c s]; [exists ""; reflexivity|].
  destruct (IH s) as [rest Hrest]. exists rest. cbn [PyStr.slice_to].
  change (String c s = String c (PyStr.slice_to n s +:+ rest)). now rewrite <- Hrest.
Qed.

Lemma slice_to_length (n : nat) (s : string) :
  String.length (PyStr.slice_to n s) = Nat.min n (String.length s).
Proof.
  revert s. induction n as [|n IH]; intros s; [reflexivity|].
  destruct s as [|c s]; [reflexivity|]. cbn [PyStr.slice_to String.length Nat.min].
  now rewrite IH.
Qed.

(** C2: with a language model, [analyze_article] parses the first 5000
    characters of the text, reports the four sub-scores of that parse, and
    returns as bias score
    [round((subjectivity + attribution + absolutism + cta) / 10.0, 1)]
    clamped to [1.0, 10.0]: 1.0 below, 10.0 above, the rounded value itself
    in between; the score lies between 1.0 and 10.0 and has one decimal. *)
Theorem analyze_article_score (nlp : string -> doc) (text : string) :
  let d := nlp (PyStr.slice_to 5000 text) in
  let b1 := metric_subjectivity d 30 in
  let b2 := metric_attribution_balance d 30 in
  let b3 := metric_absolutism d 20 in
  let b4 := metric_call_to_action d 20 in
  let s := PyFloat.round1 ((add b1 b2 + b3 + b4) / 10) in
  let r := analyze_article (Some nlp) text in
  (exists rest, text = PyStr.slice_to 5000 text +:+ rest)
  /\ String.length (PyStr.slice_to 5000 text) = Nat.min 5000 (String.length text)
  /\ details r = Details b1 b2 b3 b4
  /\ bias_score_1_to_10 r = PyFloat.py_max 1 (PyFloat.py_min 10 s)
  /\ ((s <? 1) = true -> bias_score_1_to_10 r = 1)
  /\ ((10 <? s) = true -> bias_score_1_to_10 r = 10)
  /\ ((1 <=? s) = true -> (s <=? 10) = true -> bias_score_1_to_10 r = s)
  /\ (1 <=? bias_score_1_to_10 r) = true
  /\ (bias_score_1_to_10 r <=? 10) = true
  /\ PyFloat.one_decimal (bias_score_1_to_10 r).
Proof.
  intros d b1 b2 b3 b4 s r.
  split; [apply slice_to_prefix|]. split; [apply slice_to_length|].
  assert (Hr : bias_score_1_to_10 r = PyFloat.py_max 1 (PyFloat.py_min 10 s))
    by reflexivity.
  split; [reflexivity|]. split; [exact Hr|]. rewrite Hr.
  destruct (clamp_1_10 s) as (Hbelow & Habove & Hbetween).
  split; [exact Hbelow|]. split; [exact Habove|]. split; [exact Hbetween|].
  destruct (clamp_bounds 1 10 s) as [Hlo Hhi]; try reflexivity.
  split; [exact Hlo|]. split; [exact Hhi|].
  apply clamped_one_decimal.
Qed.

End Scorer.

(** ** Classification in place *)

Section Classification.
Local Open Scope float_scope.
Import OpinionClassifier.

Variable float_repr : float -> string.
Variable analyzer : option (string -> float).

Lemma get_eq_str_center (d : gmap string value) :
  get_eq_str d "political_bucket" "center" = true <-> center d.
Proof.
  unfold get_eq_str, center.
  destruct (d !! "political_bucket") as [[t|f]|]; try (split; congruence).
  rewrite String.eqb_eq. split; congruence.
Qed.

Lemma same_fields_refl (d : gmap string value) : same_fields d d.
Proof. intros k _ _. reflexivity. Qed.

Lemma same_fields_trans (d1 d2 d3 : gmap string value) :
  same_fields d1 d2 -> same_fields d2 d3 -> same_fields d1 d3.
Proof. intros H12 H23 k Hs Ht. rewrite H23, H12; auto. Qed.

Lemma same_fields_write (d : gmap string value) (score stance : value) :
  same_fields d (<["stance" := stance]> (<["sentiment_score" := score]> d)).
Proof. intros k Hs Ht. rewrite !lookup_insert_ne; auto. Qed.

Lemma same_fields_center (d d' : gmap string value) :
  same_fields d d' -> center d -> center d'.
Proof. unfold center. intros H Hc. rewrite H; [exact Hc|discriminate..]. Qed.

(** What one iteration does to the heap. *)
Lemma classify_article_inv (h h' : gmap loc object) (a : loc) :
  classify_article float_repr analyzer h a = Ret h' ->
  exists (d : gmap string value) (score : float) (stance : string),
    h !! a = Some (ODict d)
    /\ h' = <[a := ODict (<["stance" := VStr stance]>
                         (<["sentiment_score" := VFloat score]> d))]> h
    /\ (center d -> score = 0 /\ stance = "NEUTRAL").
Proof.
  unfold classify_article.
  destruct (h !! a) as [[d|items]|] eqn:Ha; try discriminate.
  destruct (get_eq_str d "political_bucket" "center") eqn:Hc.
  - intros [= <-]. exists d, 0, "NEUTRAL". auto.
  - intros [= <-]. eexists d, _, _. split; [reflexivity|]. split; [reflexivity|].
    intros Hcenter%get_eq_str_center. congruence.
Qed.

Lemma classify_article_total (h : gmap loc object) (a : loc) (d : gmap string value) :
  h !! a = Some (ODict d) ->
  exists h', classify_article float_repr analyzer h a = Ret h'.
Proof.
  intros Ha. unfold classify_article. rewrite Ha.
  destruct (get_eq_str d "political_bucket" "center"); eauto.
Qed.

Lemma written_neutral (d : gmap string value) :
  forced_neutral (<["stance" := VStr "NEUTRAL"]> (<["sentiment_score" := VFloat 0]> d)).
Proof.
  split.
  - rewrite lookup_insert_ne by discriminate. apply lookup_insert_eq.
  - apply lookup_insert_eq.
Qed.

Lemma written_classified (d : gmap string value) (score : float) (stance : string) :
  classified (<["stance" := VStr stance]> (<["sentiment_score" := VFloat score]> d)).
Proof.
  exists score, stance. split.
  - rewrite lookup_insert_ne by discriminate. apply lookup_insert_eq.
  - apply lookup_insert_eq.
Qed.

(** The loop invariant, location by location: a dict stays a dict and
    keeps its other fields; it is rewritten only if it is in the list;
    anything else in the heap is left alone. *)
Lemma classify_loop_spec (items : list loc) :
  forall (h h' : gmap loc object),
    classify_loop float_repr analyzer items h = Ret h' ->
    forall l : loc,
      match h !! l with
      | Some (ODict d) =>
          exists d', h' !! l = Some (ODict d')
                     /\ same_fields d d'
                     /\ (l ∈ items -> classified d')
                     /\ (l ∈ items -> center d -> forced_neutral d')
                     /\ (l ∉ items -> d' = d)
      | o => h' !! l = o
      end.
Proof.
  induction items as [|a rest IH]; intros h h' Hrun l.
  - injection Hrun as <-.
    destruct (h !! l) as [[d|its]|] eqn:Hl; try reflexivity.
    exists d. split; [reflexivity|]. split; [apply same_fields_refl|].
    split; [intros Hin; inversion Hin|].
    split; [intros Hin; inversion Hin|reflexivity].
  - cbn [classify_loop] in Hrun.
    destruct (classify_article float_repr analyzer h a) as [h1|e] eqn:Hstep;
      [|discriminate].
    cbn in Hrun. specialize (IH h1 h' Hrun l).
    apply classify_article_inv in Hstep as (d0 & score & stance & Ha & -> & Hcenter).
    destruct (decide (l = a)) as [->|Hne].
    + rewrite Ha. rewrite lookup_insert_eq in IH.
      destruct IH as (d' & Hl' & Hsame & Hcls & Hneu & Hout).
      exists d'. split; [exact Hl'|].
      split; [eapply same_fields_trans; [apply same_fields_write|exact Hsame]|].
      destruct (decide (a ∈ rest)) as [Hin|Hnin].
      * split; [auto|]. split.
        -- intros _ Hc. apply Hneu; [exact Hin|].
           eapply same_fields_center; [apply same_fields_write|exact Hc].
        -- intros Hno. exfalso. apply Hno. now left.
      * rewrite (Hout Hnin). split; [intros _; apply written_classified|]. split.
        -- intros _ Hc. destruct (Hcenter Hc) as [-> ->]. apply written_neutral.
        -- intros Hno. exfalso. apply Hno. now left.
    + rewrite lookup_insert_ne in IH by congruence.
      destruct (h !! l) as [[d|its]|] eqn:Hl; try exact IH.
      destruct IH as (d' & Hl' & Hsame & Hcls & Hneu & Hout).
      exists d'. split; [exact Hl'|]. split; [exact Hsame|].
      split; [|split].
      * intros [? | Hin]%elem_of_cons; [congruence|auto].
      * intros [? | Hin]%elem_of_cons Hc; [congruence|auto].
      * intros Hno. apply Hout. intros Hin. apply Hno. now right.
Qed.

Lemma all_dicts_cons (h : gmap loc object) (a : loc) (rest : list loc) :
  all_dicts h (a :: rest) ->
  (exists d, h !! a = Some (ODict d)) /\ all_dicts h rest.
Proof.
  unfold all_dicts. cbn [forallb]. intros [Ha Hrest]%andb_true_iff.
  split; [|exact Hrest]. unfold is_dict in Ha.
  destruct (h !! a) as [[d|its]|]; try discriminate. eauto.
Qed.

Lemma all_dicts_elem (h : gmap loc object) (items : list loc) (a : loc) :
  all_dicts h items -> a ∈ items -> exists d, h !! a = Some (ODict d).
Proof.
  induction items as [|b rest IH]; intros Hall Hin; [inversion Hin|].
  apply all_dicts_cons in Hall as [Hb Hrest].
  apply elem_of_cons in Hin as [->|Hin]; auto.
Qed.

Lemma all_dicts_step (h : gmap loc object) (a : loc) (d : gmap string value)
  (items : list loc) :
  all_dicts h items -> all_dicts (<[a := ODict d]> h) items.
Proof.
  unfold all_dicts. rewrite !forallb_forall. intros Hall b Hb.
  specialize (Hall b Hb). unfold is_dict in *.
  destruct (decide (b = a)) as [->|Hne].
  - now rewrite lookup_insert_eq.
  - now rewrite lookup_insert_ne by congruence.
Qed.

Lemma classify_loop_total (items : list loc) :
  forall h : gmap loc object,
    all_dicts h items ->
    exists h', classify_loop float_repr analyzer items h = Ret h'.
Proof.
  induction items as [|a rest IH]; intros h Hall.
  - exists h. reflexivity.
  - apply all_dicts_cons in Hall as [[d Ha] Hrest].
    destruct (classify_article_total h a d Ha) as [h1 Hstep].
    cbn [classify_loop]. rewrite Hstep. cbn.
    apply IH.
    apply classify_article_inv in Hstep as (d0 & score & stance & _ & -> & _).
    now apply all_dicts_step.
Qed.

Lemma classify_articles_runs (h : gmap loc object) (articles : loc) (items : list loc) :
  h !! articles = Some (OList items) -> all_dicts h items ->
  exists h', classify_loop float_repr analyzer items h = Ret h'
             /\ classify_articles float_repr analyzer h articles = Ret (h', articles).
Proof.
  intros Hlist Hall.
  destruct (classify_loop_total items h Hall) as [h' Hrun].
  exists h'. split; [exact Hrun|].
  unfold classify_articles. rewrite Hlist, Hrun. reflexivity.
Qed.

(** C1: after [classify_articles], every article of the list whose
    [political_bucket] is ["center"] has [sentiment_score] 0.0 and
    [stance] ["NEUTRAL"], whatever its title and content. *)
Theorem classify_articles_center
  (h : gmap loc object) (articles : loc) (items : list loc) :
  h !! articles = Some (OList items) -> all_dicts h items ->
  exists h', classify_articles float_repr analyzer h articles = Ret (h', articles)
             /\ center_neutral h h' items.
Proof.
  intros Hlist Hall.
  destruct (classify_articles_runs h articles items Hlist Hall) as (h' & Hrun & Hcall).
  exists h'. split; [exact Hcall|]. split.
  - intros a d Hin Ha Hc.
    pose proof (classify_loop_spec items h h' Hrun a) as Hspec. rewrite Ha in Hspec.
    destruct Hspec as (d' & Ha' & Hsame & _ & Hneu & _).
    exists d'. split; [exact Ha'|]. split; [|auto].
    eapply same_fields_center; eassumption.
  - intros a d' Hin Ha' Hc.
    destruct (all_dicts_elem h items a Hall Hin) as [d Ha].
    pose proof (classify_loop_spec items h h' Hrun a) as Hspec. rewrite Ha in Hspec.
    destruct Hspec as (d'' & Ha'' & Hsame & _ & Hneu & _).
    assert (d'' = d') as -> by congruence.
    apply Hneu; [exact Hin|].
    unfold center in *. rewrite <- (Hsame "political_bucket"); [exact Hc|discriminate..].
Qed.

(** C10: [classify_articles] returns the reference it was given; the
    list holds the same articles in the same order; an article differs
    from what it was only in the keys [sentiment_score] and [stance],
    which every article of the list now has; nothing else in the heap
    changes. *)
Theorem classify_articles_frame
  (h : gmap loc object) (articles : loc) (items : list loc) :
  h !! articles = Some (OList items) -> all_dicts h items ->
  exists h', classify_articles float_repr analyzer h articles = Ret (h', articles)
             /\ h' !! articles = Some (OList items)
             /\ only_classification_written h h' items.
Proof.
  intros Hlist Hall.
  destruct (classify_articles_runs h articles items Hlist Hall) as (h' & Hrun & Hcall).
  exists h'. split; [exact Hcall|].
  pose proof (classify_loop_spec items h h' Hrun) as Hspec.
  assert (Hlists : forall l its, h !! l = Some (OList its) -> h' !! l = Some (OList its)).
  { intros l its Hl. specialize (Hspec l). now rewrite Hl in Hspec. }
  split; [auto|]. split; [exact Hlists|]. split.
  - intros l d Hl. specialize (Hspec l). rewrite Hl in Hspec.
    destruct Hspec as (d' & Hl' & Hsame & Hcls & _ & Hout). eauto.
  - intros l Hl. specialize (Hspec l). now rewrite Hl in Hspec.
Qed.

End Classification.

(** On [sample_heap] the dict at 2 is a center article, listed twice. *)
Lemma classify_articles_center_witness :
  exists h', OpinionClassifier.classify_articles (fun _ => "") None sample_heap 1%positive
             = Ret (h', 1%positive)
             /\ OpinionClassifier.center_neutral sample_heap h'
                  [2%positive; 3%positive; 2%positive].
Proof.
  apply (classify_articles_center (fun _ => "") None sample_heap 1%positive
           [2%positive; 3%positive; 2%positive]).
  - vm_compute. reflexivity.
  - vm_compute. reflexivity.
Defined.

(** The same call, seen from the fields it leaves alone. *)
Lemma classify_articles_frame_witness :
  exists h', OpinionClassifier.classify_articles (fun _ => "") None sample_heap 1%positive
             = Ret (h', 1%positive)
             /\ h' !! 1%positive = Some (OList [2%positive; 3%positive; 2%positive])
             /\ OpinionClassifier.only_classification_written sample_heap h'
                  [2%positive; 3%positive; 2%positive].
Proof.
  apply (classify_articles_frame (fun _ => "") None sample_heap 1%positive
           [2%positive; 3%positive; 2%positive]).
  - vm_compute. reflexivity.
  - vm_compute. reflexivity.
Defined.

(** ** The keyword fallback *)

Section Fallback.
Local Open Scope float_scope.
Import OpinionClassifier.

Lemma keywords_present_cons (w : string) (words : list string) (t : string) :
  keywords_present (w :: words) t
  = ((if PyStr.contains w t then 1 else 0) + keywords_present words t)%nat.
Proof.
  unfold keywords_present. rewrite filter_cons.
  destruct (PyStr.contains w t); reflexivity.
Qed.

Lemma add_hits_count (t : string) (words : list string) :
  forall score : float,
    add_hits t words score = add_n (keywords_present words t) score.
Proof.
  induction words as [|w words IH]; intros score; [reflexivity|].
  cbn [add_hits]. rewrite IH, keywords_present_cons.
  destruct (PyStr.contains w t); reflexivity.
Qed.

Lemma sub_hits_count (t : string) (words : list string) :
  forall score : float,
    sub_hits t words score = sub_n (keywords_present words t) score.
Proof.
  induction words as [|w words IH]; intros score; [reflexivity|].
  cbn [sub_hits]. rewrite IH, keywords_present_cons.
  destruct (PyStr.contains w t); reflexivity.
Qed.

(** C5, as amended: without the sentiment model, [_analyze_sentiment]
    starts at 0.0, adds 0.3 once for every positive keyword that occurs
    in the lowercased text, subtracts 0.3 once for every negative
    keyword that occurs in it, and clamps the result to [-1.0, 1.0]. *)
Theorem analyze_sentiment_fallback (text : string) :
  _analyze_sentiment None text = per_keyword_score text
  /\ (-1 <=? _analyze_sentiment None text) = true
  /\ (_analyze_sentiment None text <=? 1) = true.
Proof.
  unfold _analyze_sentiment, per_keyword_score. cbv zeta.
  rewrite add_hits_count, sub_hits_count.
  split; [reflexivity|].
  apply clamp_bounds; reflexivity.
Qed.

Lemma float_neq (x y : float) : Prim2SF x <> Prim2SF y -> x <> y.
Proof. intros H ->. now apply H. Qed.

(** C5, as stated, fails on ["good good"]: the keyword occurs twice, the
    fallback adds 0.3 once. *)
Lemma analyze_sentiment_not_per_occurrence :
  "good good" <> ""
  /\ _analyze_sentiment None "good good" = 0.3
  /\ per_occurrence_score "good good" = 0.6
  /\ _analyze_sentiment None "good good" <> per_occurrence_score "good good".
Proof.
  split; [discriminate|].
  split; [vm_compute; reflexivity|].
  split; [vm_compute; reflexivity|].
  apply float_neq. vm_compute. discriminate.
Qed.

End Fallback.

(** ** Facts on strings *)

Section Strings.
Import PyStr.

Lemma lower_length (s : string) : String.length (lower s) = String.length s.
Proof. induction s as [|c s IH]; cbn; congruence. Qed.

Lemma lstrip_no_leading_space (s : string) : starts_with_space (lstrip s) = false.
Proof.
  induction s as [|c s IH]; [reflexivity|].
  cbn [lstrip]. destruct (isspace c) eqn:Hc; [exact IH|].
  cbn. exact Hc.
Qed.

Lemma rstrip_keeps_start (s : string) :
  starts_with_space s = false -> starts_with_space (rstrip s) = false.
Proof.
  destruct s as [|c s]; [reflexivity|].
  cbn [starts_with_space rstrip]. intros Hc.
  destruct (rstrip s); [rewrite Hc|]; cbn; exact Hc.
Qed.

Lemma rstrip_no_trailing_space (s : string) : ends_with_space (rstrip s) = false.
Proof.
  induction s as [|c s IH]; [reflexivity|].
  cbn [rstrip]. destruct (rstrip s) as [|a r].
  - destruct (isspace c) eqn:Hc; cbn; [reflexivity|exact Hc].
  - exact IH.
Qed.

Lemma strip_trimmed (s : string) : trimmed (strip s).
Proof.
  split.
  - apply rstrip_keeps_start, lstrip_no_leading_space.
  - apply rstrip_no_trailing_space.
Qed.

Lemma truthy_nonempty (s : string) : truthy s = true -> s <> "".
Proof. destruct s; [discriminate|]. intros _. discriminate. Qed.

End Strings.

(** ** Facts on lists *)

Section Lists.
Context {A B : Type}.

Lemma filter_map_comm (f : A -> B) (P : B -> Prop) `{!forall y, Decision (P y)}
  (l : list A) :
  filter P (map f l) = map f (filter (fun x => P (f x)) l).
Proof.
  induction l as [|x l IH]; [reflexivity|].
  cbn [map]. rewrite !filter_cons, IH.
  destruct (decide (P (f x))); reflexivity.
Qed.

Lemma filter_ext_dec (P Q : A -> Prop) `{!forall x, Decision (P x)}
  `{!forall x, Decision (Q x)} (l : list A) :
  (forall x, P x <-> Q x) -> filter P l = filter Q l.
Proof.
  intros HPQ. induction l as [|x l IH]; [reflexivity|].
  rewrite !filter_cons, IH.
  destruct (decide (P x)) as [p|np], (decide (Q x)) as [q|nq]; try reflexivity.
  - destruct nq. apply HPQ, p.
  - destruct np. apply HPQ, q.
Qed.

Lemma elem_of_flat_map (f : A -> list B) (l : list A) (y : B) :
  y ∈ flat_map f l <-> exists x, x ∈ l /\ y ∈ f x.
Proof.
  rewrite list_elem_of_In, in_flat_map.
  split; intros (x & Hx & Hy); exists x;
    [rewrite !list_elem_of_In | rewrite <- !list_elem_of_In]; auto.
Qed.

End Lists.

(** ** The stable sort *)

Section Sort.
Import NewsGatherer.
Context {A : Type} (key : A -> nat).

Lemma insert_by_perm (x : A) (l : list A) : insert_by key x l ≡ₚ x :: l.
Proof.
  induction l as [|y l IH]; [reflexivity|].
  cbn [insert_by]. destruct (key x <=? key y)%nat; [reflexivity|].
  rewrite IH. apply Permutation_swap.
Qed.

Lemma sort_by_perm (l : list A) : sort_by key l ≡ₚ l.
Proof.
  induction l as [|x l IH]; [reflexivity|].
  cbn [sort_by foldr]. fold (sort_by key l).
  rewrite insert_by_perm, IH. reflexivity.
Qed.

(** Inserting into a list already split in keys 0 and keys 1. *)
Lemma insert_by_split (x : A) (l0 l1 : list A) :
  Forall (fun y => key y = 0) l0 -> Forall (fun y => key y = 1) l1 ->
  insert_by key x (l0 ++ l1)
  = if (key x =? 0)%nat then x :: l0 ++ l1
    else if (key x =? 1)%nat then l0 ++ x :: l1
    else l0 ++ l1 ++ [x].
Proof.
  intros H0 H1. destruct (key x) as [|[|n]] eqn:Hx; cbn [Nat.eqb].
  - destruct (l0 ++ l1) as [|y l]; cbn [insert_by]; rewrite ?Hx; reflexivity.
  - induction H0 as [|y l0 Hy H0 IH]; cbn [insert_by app].
    + destruct H1 as [|y l1 Hy H1]; cbn [insert_by]; rewrite ?Hx, ?Hy; reflexivity.
    + rewrite Hx, Hy, IH. reflexivity.
  - induction H0 as [|y l0 Hy H0 IH]; cbn [insert_by app].
    + induction H1 as [|y l1 Hy H1 IH]; cbn [insert_by app]; [reflexivity|].
      rewrite Hx, Hy, IH. reflexivity.
    + rewrite Hx, Hy, IH. reflexivity.
Qed.

Hypothesis key_binary : forall x, key x = 0 \/ key x = 1.

(** With two keys the stable sort is a partition that keeps the order on
    each side. *)
Lemma sort_by_partition (l : list A) :
  sort_by key l = filter (fun x => key x = 0) l ++ filter (fun x => key x = 1) l.
Proof.
  induction l as [|x l IH]; [reflexivity|].
  cbn [sort_by foldr]. fold (sort_by key l). rewrite IH.
  rewrite insert_by_split by (apply Forall_forall; intros y [Hy _]%list_elem_of_filter; exact Hy).
  rewrite !filter_cons.
  destruct (key_binary x) as [Hx|Hx]; rewrite Hx; cbn;
    repeat case_decide; try lia; reflexivity.
Qed.

Lemma partition_order (l : list A) (i j : nat) (a b : A) :
  sort_by key l !! i = Some a -> sort_by key l !! j = Some b ->
  key a = 0 -> key b = 1 -> i < j.
Proof.
  rewrite sort_by_partition.
  set (l0 := filter _ l). set (l1 := filter (fun x => key x = 1) l).
  intros Ha Hb Hka Hkb.
  apply lookup_app_Some in Ha as [Ha|[Hi Ha]].
  - apply lookup_app_Some in Hb as [Hb|[Hj Hb]].
    + apply list_elem_of_lookup_2, list_elem_of_filter in Hb as [Hb _]. lia.
    + apply lookup_lt_Some in Ha. lia.
  - apply list_elem_of_lookup_2, list_elem_of_filter in Ha as [Ha _]. lia.
Qed.

End Sort.

(** ** Fetching and collecting *)

Section Gathering.
Import NewsGatherer.

Variable feedparser : option (string -> outcome feed_data).
Variable as_completed : list (string * string) -> list (string * string).

Lemma fetch_never_raises (url : string) :
  exists r, _fetch_articles feedparser url = Ret r
            /\ (forall parse e, feedparser = Some parse -> parse url = Raise e -> r = None)
            /\ (feedparser = None -> r = None).
Proof.
  unfold _fetch_articles. destruct feedparser as [parse|].
  - destruct (parse url) as [fd|e] eqn:Hparse; cbn.
    + exists (Some fd). split; [reflexivity|]. split; [|discriminate].
      intros parse' e' [= <-]. congruence.
    + exists None. auto.
  - exists None. auto.
Qed.

Lemma handle_future_contribution (articles : list (gmap string value))
  (task : string * string) :
  handle_future feedparser articles task = Ret (articles ++ contribution feedparser task).
Proof.
  destruct task as [url bucket]. unfold handle_future, contribution.
  destruct (_fetch_articles feedparser url) as [[fd|]|e]; cbn;
    rewrite ?app_nil_r; try reflexivity.
  destruct (_normalize_articles fd bucket url) as [normalized|e]; cbn;
    rewrite ?app_nil_r; reflexivity.
Qed.

Lemma collect_contributions (tasks : list (string * string)) :
  forall articles : list (gmap string value),
    collect feedparser tasks articles
    = Ret (articles ++ flat_map (contribution feedparser) tasks).
Proof.
  induction tasks as [|task rest IH]; intros articles; cbn [collect flat_map].
  - now rewrite app_nil_r.
  - rewrite handle_future_contribution. cbn. rewrite IH, app_assoc. reflexivity.
Qed.

Lemma elem_of_contribution (task : string * string) (art : gmap string value) :
  art ∈ contribution feedparser task
  <-> exists fd normalized,
      _fetch_articles feedparser task.1 = Ret (Some fd)
      /\ _normalize_articles fd task.2 task.1 = Ret normalized
      /\ art ∈ normalized.
Proof.
  destruct task as [url bucket]. unfold contribution. cbn [fst snd].
  destruct (_fetch_articles feedparser url) as [[fd|]|e].
  - destruct (_normalize_articles fd bucket url) as [normalized|e] eqn:Hn.
    + split; [intros Hin; exists fd, normalized; auto|].
      intros (fd' & n' & [= <-] & Hn' & Hin). congruence.
    + split; [intros Hin; inversion Hin|].
      intros (fd' & n' & [= <-] & Hn' & _). congruence.
  - split; [intros Hin; inversion Hin|]. intros (? & ? & ? & _). discriminate.
  - split; [intros Hin; inversion Hin|]. intros (? & ? & ? & _). discriminate.
Qed.

Lemma elem_of_filter_by_topic (topic : option string)
  (articles : list (gmap string value)) (art : gmap string value) :
  art ∈ filter_by_topic topic articles <-> art ∈ articles /\ passes topic art.
Proof.
  unfold filter_by_topic, passes. destruct topic as [t|]; [|tauto].
  destruct (PyStr.truthy t); [|tauto].
  rewrite list_elem_of_filter. tauto.
Qed.

Lemma image_key_binary (x : gmap string value) : image_key x = 0 \/ image_key x = 1.
Proof. unfold image_key. destruct (negb _); auto. Qed.

(** The whole of [gather_articles], as one expression. *)
Lemma gather_articles_eq (sources : list (string * list string)) (topic : option string) :
  gather_articles feedparser as_completed sources topic
  = Ret (sort_by image_key
           (filter_by_topic topic
              (flat_map (contribution feedparser) (as_completed (build_tasks sources))))).
Proof.
  unfold gather_articles. rewrite collect_contributions. reflexivity.
Qed.

(** C4: [_fetch_articles] never raises, and turns a failure of the feed
    parser into [None]; [gather_articles] never raises either, and its
    result holds exactly the articles (passing the topic filter) of the
    tasks whose own fetch and normalization went through, whatever
    happened to the other tasks. *)
Theorem failures_are_contained
  (sources : list (string * list string)) (topic : option string) (url : string) :
  (forall tasks, as_completed tasks ≡ₚ tasks) ->
  (exists r, _fetch_articles feedparser url = Ret r
             /\ (forall parse e,
                    feedparser = Some parse -> parse url = Raise e -> r = None))
  /\ exists result,
      gather_articles feedparser as_completed sources topic = Ret result
      /\ forall art : gmap string value,
          art ∈ result
          <-> exists task fd normalized,
              task ∈ build_tasks sources
              /\ _fetch_articles feedparser task.1 = Ret (Some fd)
              /\ _normalize_articles fd task.2 task.1 = Ret normalized
              /\ art ∈ normalized
              /\ passes topic art.
Proof.
  intros Hperm. split.
  - destruct (fetch_never_raises url) as (r & Hr & Hfail & _). eauto.
  - eexists. split; [apply gather_articles_eq|].
    intros art. rewrite sort_by_perm, elem_of_filter_by_topic, elem_of_flat_map.
    split.
    + intros [(task & Htask & Hin) Hpass].
      rewrite Hperm in Htask.
      apply elem_of_contribution in Hin as (fd & normalized & Hf & Hn & Hin).
      exists task, fd, normalized. auto.
    + intros (task & fd & normalized & Htask & Hf & Hn & Hin & Hpass).
      split; [|exact Hpass]. exists task. rewrite Hperm. split; [exact Htask|].
      apply elem_of_contribution. eauto.
Qed.

(** C8: the list returned by [gather_articles] is the filtered list with
    the articles whose image does not contain ["ui-avatars.com"] first
    and the others after them, each group in the order it had; so a
    real image always comes before a placeholder, and of two articles
    the one with the real image is first. *)
Theorem real_images_first
  (sources : list (string * list string)) (topic : option string) :
  exists articles result,
    collect feedparser (as_completed (build_tasks sources)) [] = Ret articles
    /\ gather_articles feedparser as_completed sources topic = Ret result
    /\ result
       = filter (fun x => image_key x = 0) (filter_by_topic topic articles)
         ++ filter (fun x => image_key x = 1) (filter_by_topic topic articles)
    /\ (forall i j a b,
          result !! i = Some a -> result !! j = Some b ->
          PyStr.contains "ui-avatars.com" (get_str a "image") = false ->
          PyStr.contains "ui-avatars.com" (get_str b "image") = true ->
          i < j)
    /\ (forall placeholder real : gmap string value,
          PyStr.contains "ui-avatars.com" (get_str placeholder "image") = true ->
          PyStr.contains "ui-avatars.com" (get_str real "image") = false ->
          sort_by image_key [placeholder; real] = [real; placeholder]
          /\ sort_by image_key [real; placeholder] = [real; placeholder]).
Proof.
  eexists _, _. split; [apply collect_contributions|].
  split; [apply gather_articles_eq|]. cbn [app].
  split; [apply sort_by_partition, image_key_binary|].
  split.
  - intros i j a b Ha Hb Hka Hkb.
    eapply (partition_order image_key image_key_binary); [exact Ha|exact Hb|..];
      unfold image_key; [rewrite Hka|rewrite Hkb]; reflexivity.
  - intros p r Hp Hr. unfold sort_by, image_key. cbn [foldr insert_by].
    rewrite Hp, Hr. cbn. auto.
Qed.

End Gathering.

(** One source is down, the other answers: its article is returned. *)
Lemma failures_are_contained_witness :
  (forall tasks : list (string * string), (fun tasks => tasks) tasks ≡ₚ tasks)
  /\ NewsGatherer.gather_articles (Some flaky_parser) (fun tasks => tasks) two_sources None
     = Ret [split_word_article]
  /\ ((exists r, NewsGatherer._fetch_articles (Some flaky_parser)
                  "https://down.example/rss" = Ret r
                /\ (forall parse e,
                       Some flaky_parser = Some parse ->
                       parse "https://down.example/rss" = Raise e -> r = None))
      /\ exists result,
          NewsGatherer.gather_articles (Some flaky_parser)
            (fun tasks => tasks) two_sources None = Ret result
          /\ forall art : gmap string value,
              art ∈ result
              <-> exists task fd normalized,
                  task ∈ NewsGatherer.build_tasks two_sources
                  /\ NewsGatherer._fetch_articles (Some flaky_parser) task.1
                     = Ret (Some fd)
                  /\ NewsGatherer._normalize_articles fd task.2 task.1 = Ret normalized
                  /\ art ∈ normalized
                  /\ NewsGatherer.passes None art).
Proof.
  split; [intros tasks; reflexivity|].
  split; [reflexivity|].
  apply (failures_are_contained (Some flaky_parser)
           (fun tasks => tasks) two_sources None "https://down.example/rss").
  intros tasks. reflexivity.
Defined.

(** ** The topic filter *)

Section TopicFilter.
Import NewsGatherer.

Variable feedparser : option (string -> outcome feed_data).
Variable as_completed : list (string * string) -> list (string * string).

Lemma raw_keywords_by_spec (topic : string) :
  raw_keywords_of topic
  = filter (fun w => 3 < String.length w) (map PyStr.lower (PyStr.split topic)).
Proof.
  unfold raw_keywords_of. rewrite filter_map_comm. f_equal.
  apply filter_ext_dec. intros w. now rewrite lower_length.
Qed.

Lemma keywords_of_by_spec (topic : string) : keywords_of topic = keywords_by_spec topic.
Proof.
  unfold keywords_of, keywords_by_spec. cbv zeta. rewrite raw_keywords_by_spec.
  set (raw := filter _ (map PyStr.lower _)).
  destruct (filter _ raw); [|reflexivity]. destruct raw; reflexivity.
Qed.

Lemma matches_iff (keywords : list string) (art : gmap string value) :
  matches keywords art = true
  <-> exists k, k ∈ keywords /\ PyStr.contains k (text_to_search art) = true.
Proof.
  unfold matches. rewrite existsb_exists.
  split; intros (k & Hk & Hc); exists k;
    [rewrite list_elem_of_In | rewrite <- list_elem_of_In]; auto.
Qed.

(** C6, as amended: for a non-empty topic the keywords are the
    lowercased whitespace-separated tokens longer than 3 characters,
    without the stop words; when that leaves nothing, the tokens
    themselves, and when there are none, the whole topic lowercased. An
    article is retained iff some keyword occurs in the lowercased text
    made of its title, one space and its content. *)
Theorem topic_filter_keywords
  (sources : list (string * list string)) (topic : string) :
  topic <> "" ->
  keywords_of topic = keywords_by_spec topic
  /\ exists articles result,
      collect feedparser (as_completed (build_tasks sources)) [] = Ret articles
      /\ gather_articles feedparser as_completed sources (Some topic) = Ret result
      /\ forall art : gmap string value,
          art ∈ result
          <-> art ∈ articles
              /\ exists k, k ∈ keywords_by_spec topic
                           /\ PyStr.contains k
                                (PyStr.lower (get_str art "title" +:+ " "
                                              +:+ get_str art "content")) = true.
Proof.
  intros Htopic. split; [apply keywords_of_by_spec|].
  eexists _, _. split; [apply collect_contributions|].
  split; [apply gather_articles_eq|]. cbn [app].
  intros art. rewrite sort_by_perm, elem_of_filter_by_topic.
  unfold passes. destruct topic as [|c t]; [congruence|]. cbn [PyStr.truthy].
  rewrite matches_iff, keywords_of_by_spec. reflexivity.
Qed.

End TopicFilter.

(** C6, as stated, fails: the keyword ["ukraine"] occurs in the title
    concatenated with the content, yet the article is not retained,
    because the text that is searched has a space between the two. *)
Lemma topic_filter_joins_with_space :
  NewsGatherer.keywords_of "ukraine" = ["ukraine"]
  /\ NewsGatherer.collect (Some (fun _ => Ret split_word_feed))
       (NewsGatherer.build_tasks one_source) []
     = Ret [split_word_article]
  /\ PyStr.contains "ukraine"
       (PyStr.lower (NewsGatherer.get_str split_word_article "title"
                     +:+ NewsGatherer.get_str split_word_article "content")) = true
  /\ NewsGatherer.gather_articles (Some (fun _ => Ret split_word_feed)) (fun tasks => tasks)
       one_source (Some "ukraine")
     = Ret [].
Proof.
  split; [vm_compute; reflexivity|].
  split; [reflexivity|].
  split; [vm_compute; reflexivity|].
  vm_compute. reflexivity.
Qed.

(** The topic of the specification: only ["ukraine"] is searched for. *)
Lemma topic_filter_keywords_witness :
  "Ukraine War Crisis" <> ""
  /\ NewsGatherer.keywords_of "Ukraine War Crisis" = ["ukraine"]
  /\ (NewsGatherer.keywords_of "Ukraine War Crisis"
      = NewsGatherer.keywords_by_spec "Ukraine War Crisis"
      /\ exists articles result,
          NewsGatherer.collect (Some (fun _ => Ret split_word_feed))
            (NewsGatherer.build_tasks one_source) [] = Ret articles
          /\ NewsGatherer.gather_articles (Some (fun _ => Ret split_word_feed))
               (fun tasks => tasks) one_source (Some "Ukraine War Crisis") = Ret result
          /\ forall art : gmap string value,
              art ∈ result
              <-> art ∈ articles
                  /\ exists k, k ∈ NewsGatherer.keywords_by_spec "Ukraine War Crisis"
                               /\ PyStr.contains k
                                    (PyStr.lower (NewsGatherer.get_str art "title" +:+ " "
                                                  +:+ NewsGatherer.get_str art "content"))
                                  = true).
Proof.
  split; [discriminate|].
  split; [vm_compute; reflexivity|].
  apply (topic_filter_keywords (Some (fun _ => Ret split_word_feed)) (fun tasks => tasks)
           one_source "Ukraine War Crisis").
  discriminate.
Defined.

(** ** Normalization *)

Section Normalization.
Import NewsGatherer.

Lemma first_image_enclosure_find (encs : list enclosure) (image_url : option string) :
  first_image_enclosure encs image_url
  = match List.find is_image_enclosure encs with
    | Some enc => enc_href enc
    | None => image_url
    end.
Proof.
  induction encs as [|enc rest IH]; [reflexivity|].
  cbn [first_image_enclosure List.find]. unfold is_image_enclosure at 1.
  destruct (PyStr.startswith _ _); [reflexivity|exact IH].
Qed.

Lemma falsy_truthy (url : string) : falsy (Some url) = negb (PyStr.truthy url).
Proof. reflexivity. Qed.

(** The four steps of the code pick the first non-empty candidate. *)
Lemma resolve_image_by_order (e : entry) (source_name bucket : string) :
  resolve_image e source_name bucket = image_by_order e source_name bucket.
Proof.
  unfold resolve_image, image_by_order, from_media_thumbnail, from_enclosures,
    media_thumbnail_url, enclosure_image_url, from_media_content.
  cbn [first_nonempty].
  destruct (media_content e) as [[|[u|] mc]|];
    destruct (media_thumbnail e) as [[|[v|] mt]|];
    destruct (enclosures e) as [encs|];
    rewrite ?first_image_enclosure_find;
    try destruct (List.find is_image_enclosure encs) as [enc|];
    try destruct (enc_href enc) as [w|];
    rewrite ?falsy_truthy; cbn [falsy negb default];
    repeat match goal with
      | |- context [PyStr.truthy ?x] =>
          let H := fresh "Ht" in
          destruct (PyStr.truthy x) eqn:H; cbn [falsy negb default]; rewrite ?falsy_truthy, ?H
      end;
    cbn [falsy negb default]; try reflexivity;
    repeat match goal with
      | H : PyStr.truthy _ = _ |- _ => rewrite H
      end; reflexivity.
Qed.

Lemma avatar_url_nonempty (source_name bucket : string) : avatar_url source_name bucket <> "".
Proof.
  unfold avatar_url.
  destruct (String.eqb bucket "left"), (String.eqb bucket "right"); discriminate.
Qed.

Lemma resolve_image_nonempty (e : entry) (source_name bucket : string) :
  resolve_image e source_name bucket <> "".
Proof.
  unfold resolve_image.
  destruct (from_enclosures e _) as [url|]; [|apply avatar_url_nonempty].
  destruct (PyStr.truthy url) eqn:Hurl; [|apply avatar_url_nonempty].
  now apply truthy_nonempty.
Qed.

Lemma normalize_articles_inv (fd : feed_data) (bucket source_url : string)
  (arts : list (gmap string value)) :
  _normalize_articles fd bucket source_url = Ret arts ->
  exists source_name,
    (feed_title fd = Some source_name
     \/ feed_title fd = None /\ domain_of source_url = Ret source_name)
    /\ arts = map (fun e => normalize_entry e source_name bucket source_url) (entries fd).
Proof.
  unfold _normalize_articles.
  destruct (feed_title fd) as [t|]; cbn.
  - intros [= <-]. exists t. auto.
  - destruct (domain_of source_url) as [host|e]; cbn; [|discriminate].
    intros [= <-]. exists host. auto.
Qed.

Lemma elem_of_normalized (fd : feed_data) (bucket source_url : string)
  (arts : list (gmap string value)) (art : gmap string value) :
  _normalize_articles fd bucket source_url = Ret arts -> art ∈ arts ->
  exists source_name e,
    e ∈ entries fd /\ art = normalize_entry e source_name bucket source_url.
Proof.
  intros (source_name & _ & ->)%normalize_articles_inv Hin.
  apply list_elem_of_In, in_map_iff in Hin as (e & <- & He).
  exists source_name, e. rewrite list_elem_of_In. auto.
Qed.

Ltac dict_lookup :=
  unfold normalize_entry; cbv zeta;
  repeat (rewrite lookup_insert_ne by discriminate); apply lookup_insert_eq.

Lemma normalized_image (e : entry) (source_name bucket source_url : string) :
  normalize_entry e source_name bucket source_url !! "image"
  = Some (VStr (resolve_image e source_name bucket)).
Proof. dict_lookup. Qed.

Lemma normalized_title (e : entry) (source_name bucket source_url : string) :
  normalize_entry e source_name bucket source_url !! "title"
  = Some (VStr (PyStr.strip (default "No Title" (title e)))).
Proof. dict_lookup. Qed.

Lemma normalized_source (e : entry) (source_name bucket source_url : string) :
  normalize_entry e source_name bucket source_url !! "source"
  = Some (VStr (PyStr.strip source_name)).
Proof. dict_lookup. Qed.

Lemma normalized_content (e : entry) (source_name bucket source_url : string) :
  normalize_entry e source_name bucket source_url !! "content"
  = Some (VStr (PyStr.strip
                  (default (default "No Content Available" (description e)) (summary e)))).
Proof. dict_lookup. Qed.

Lemma normalized_published_at (e : entry) (source_name bucket source_url : string) :
  normalize_entry e source_name bucket source_url !! "published_at"
  = Some (VStr (default (default "Unknown Date" (updated e)) (published e))).
Proof. dict_lookup. Qed.

Lemma isspace_whitespace (c : ascii) : PyStr.isspace c = whitespace c.
Proof. destruct c as [[] [] [] [] [] [] [] []]; reflexivity. Qed.

Lemma trimmed_first_char (t : string) (c : ascii) :
  PyStr.trimmed t -> first_char t = Some c -> whitespace c = false.
Proof.
  intros [Hstart _]. destruct t as [|a t]; [discriminate|].
  intros [= <-]. rewrite <- isspace_whitespace. exact Hstart.
Qed.

Lemma ends_with_space_last_char (t : string) (c : ascii) :
  PyStr.ends_with_space t = false -> last_char t = Some c -> whitespace c = false.
Proof.
  induction t as [|a t IH]; [discriminate|].
  destruct t as [|b t].
  - cbn [PyStr.ends_with_space last_char]. intros Ha [= <-].
    rewrite <- isspace_whitespace. exact Ha.
  - intros Hend Hlast. apply IH; [exact Hend|exact Hlast].
Qed.

Lemma lstrip_split (s : string) :
  exists before, s = before +:+ PyStr.lstrip s /\ only_spaces before = true.
Proof.
  induction s as [|c s (before & Hs & Hb)]; [exists ""; auto|].
  cbn [PyStr.lstrip]. destruct (PyStr.isspace c) eqn:Hc.
  - exists (String c before). split.
    + change (String c s = String c (before +:+ PyStr.lstrip s)). now rewrite <- Hs.
    + cbn [only_spaces]. now rewrite <- isspace_whitespace, Hc, Hb.
  - exists "". auto.
Qed.

Lemma rstrip_split (s : string) :
  exists after, s = PyStr.rstrip s +:+ after /\ only_spaces after = true.
Proof.
  induction s as [|c s (after & Hs & Ha)]; [exists ""; auto|].
  cbn [PyStr.rstrip]. destruct (PyStr.rstrip s) as [|a r] eqn:Hr.
  - destruct (PyStr.isspace c) eqn:Hc.
    + exists (String c after). split.
      * change ("" +:+ after) with after in Hs. now rewrite <- Hs.
      * cbn [only_spaces]. now rewrite <- isspace_whitespace, Hc, Ha.
    + exists after. split; [|exact Ha].
      change (String c s = String c ("" +:+ after)). now rewrite <- Hs.
  - exists after. split; [|exact Ha].
    change (String c s = String c (String a r +:+ after)). now rewrite <- Hs.
Qed.

(** [strip] removes the whitespace at the two ends, and nothing else. *)
Lemma strip_trimmed_from (s : string) : trimmed_from s (PyStr.strip s).
Proof.
  split.
  - destruct (lstrip_split s) as (before & Hs & Hb).
    destruct (rstrip_split (PyStr.lstrip s)) as (after & Hl & Ha).
    exists before, after. unfold PyStr.strip. split; [|auto].
    rewrite <- Hl. exact Hs.
  - pose proof (strip_trimmed s) as Ht. split; intros c.
    + now apply trimmed_first_char.
    + apply ends_with_space_last_char, Ht.
Qed.

Lemma normalized_at (fd : feed_data) (bucket source_url : string)
  (arts : list (gmap string value)) :
  _normalize_articles fd bucket source_url = Ret arts ->
  exists name,
    source_name_is fd source_url name
    /\ length arts = length (entries fd)
    /\ forall (i : nat) (e : entry),
        entries fd !! i = Some e ->
        arts !! i = Some (normalize_entry e name bucket source_url).
Proof.
  intros Hn.
  destruct (normalize_articles_inv _ _ _ _ Hn) as (name & Hname & Harts).
  exists name. split.
  { destruct Hname as [Ht|[Ht Hd]]; [left; exact Ht|right].
    split; [exact Ht|]. unfold domain_of in Hd.
    destruct (PyStr.split_on "/" source_url !! 2%nat) as [host|]; [|discriminate].
    injection Hd as <-. exists host. auto. }
  split; [rewrite Harts; apply length_map|].
  intros i e He. rewrite Harts.
  change (map ?f ?l) with (f <$> l). rewrite list_lookup_fmap, He. reflexivity.
Qed.

(** C9, as amended: the article made from an entry has as title, source
    and content the entry's title (else "No Title"), the name of the
    source, and the entry's summary (else its description, else "No
    Content Available"), each without the whitespace at its two ends and
    otherwise unchanged; its [published_at] is the entry's [published]
    (else [updated], else ["Unknown Date"]) as it came, not trimmed. *)
Theorem text_fields_trimmed (fd : feed_data) (bucket source_url : string)
  (arts : list (gmap string value)) :
  _normalize_articles fd bucket source_url = Ret arts ->
  exists name : string,
    source_name_is fd source_url name
    /\ length arts = length (entries fd)
    /\ forall (i : nat) (e : entry),
        entries fd !! i = Some e ->
        exists (art : gmap string value) (t s c : string),
          arts !! i = Some art
          /\ art !! "title" = Some (VStr t)
          /\ trimmed_from (default "No Title" (title e)) t
          /\ art !! "source" = Some (VStr s)
          /\ trimmed_from name s
          /\ art !! "content" = Some (VStr c)
          /\ trimmed_from
               (default (default "No Content Available" (description e)) (summary e)) c
          /\ art !! "published_at"
             = Some (VStr (default (default "Unknown Date" (updated e)) (published e))).
Proof.
  intros Hn. destruct (normalized_at _ _ _ _ Hn) as (name & Hname & Hlen & Hat).
  exists name. split; [exact Hname|]. split; [exact Hlen|].
  intros i e He. eexists _, _, _, _. split; [apply (Hat i e He)|].
  split; [apply normalized_title|]. split; [apply strip_trimmed_from|].
  split; [apply normalized_source|]. split; [apply strip_trimmed_from|].
  split; [apply normalized_content|]. split; [apply strip_trimmed_from|].
  apply normalized_published_at.
Qed.

End Normalization.

(** ** Image resolution *)

Section Images.
Import NewsGatherer ImageHandler.

Variable requests_get : string -> outcome response.
Variable og_image : string -> option string.

Lemma get_article_image_nonempty (cache : gmap (string * string) string)
  (article_url source_name : string) :
  cache_ok cache ->
  (get_article_image requests_get og_image cache article_url source_name).1 <> ""
  /\ cache_ok (get_article_image requests_get og_image cache article_url source_name).2.
Proof.
  intros Hok. unfold get_article_image.
  destruct (cache !! (article_url, source_name)) as [cached|] eqn:Hc; cbn [fst snd].
  - split; [eapply Hok, Hc|exact Hok].
  - set (found := if falsy _ then _ else _).
    assert (Hne : match found with
                  | Some url => if PyStr.truthy url then url else default_logo
                  | None => default_logo
                  end <> "").
    { destruct found as [url|]; [|discriminate].
      destruct (PyStr.truthy url) eqn:Hurl; [now apply truthy_nonempty|discriminate]. }
    split; [exact Hne|].
    intros k v. rewrite lookup_insert. case_decide.
    + intros [= <-]. exact Hne.
    + apply Hok.
Qed.

(** From an empty cache, no call of a sequence returns the empty string. *)
Lemma run_calls_nonempty (calls : list (string * string)) :
  forall cache : gmap (string * string) string,
    cache_ok cache ->
    Forall (fun img => img <> "") (run_calls requests_get og_image cache calls).
Proof.
  induction calls as [|[article_url source_name] rest IH]; intros cache Hok;
    cbn [run_calls]; [constructor|].
  destruct (get_article_image_nonempty cache article_url source_name Hok) as [Hne Hok'].
  destruct (get_article_image _ _ cache article_url source_name) as [img cache'].
  constructor; [exact Hne|]. apply IH, Hok'.
Qed.

Lemma from_media_content_url (e : entry) : from_media_content e = media_content_url e.
Proof.
  unfold from_media_content, media_content_url.
  destruct (media_content e) as [[|[url|] rest]|]; reflexivity.
Qed.

Lemma first_nonempty_usable (candidates : list (option string)) :
  first_nonempty candidates = first_usable candidates.
Proof.
  induction candidates as [|[[|c url]|] rest IH]; cbn; auto.
Qed.

Lemma avatar_url_by_spec (source_name bucket : string) :
  avatar_url source_name bucket = avatar_by_spec source_name bucket.
Proof.
  unfold avatar_url, avatar_by_spec, bucket_colors.
  destruct (String.eqb_spec bucket "right") as [->|Hr]; [reflexivity|].
  destruct (String.eqb bucket "left"); reflexivity.
Qed.

(** The steps of the code give the image of the resolution order. *)
Lemma resolve_image_by_spec (e : entry) (source_name bucket : string) :
  resolve_image e source_name bucket = image_by_spec e source_name bucket.
Proof.
  rewrite resolve_image_by_order. unfold image_by_order, image_by_spec.
  rewrite from_media_content_url, first_nonempty_usable, avatar_url_by_spec.
  destruct (first_usable _); reflexivity.
Qed.

(** C7: the article made from an entry has as image the URL of the
    entry's first media content, else of its first media thumbnail, else
    the link of its first enclosure with an [image/] type, the first of
    the three that is a non-empty string, else the avatar built from the
    quoted name of the article's source and the color pair of the bucket;
    in each case it is not empty. [get_article_image] does not return the
    empty string either, for any URL and source name, keeps its cache
    free of empty strings, and never returns one in a sequence of calls
    from the empty cache. *)
Theorem image_never_empty
  (fd : feed_data) (bucket source_url : string) (arts : list (gmap string value))
  (cache : gmap (string * string) string) (article_url source_name : string) :
  _normalize_articles fd bucket source_url = Ret arts -> cache_ok cache ->
  (exists name : string,
      source_name_is fd source_url name
      /\ length arts = length (entries fd)
      /\ forall (i : nat) (e : entry),
          entries fd !! i = Some e ->
          exists art : gmap string value,
            arts !! i = Some art
            /\ art !! "image" = Some (VStr (image_by_spec e name bucket))
            /\ image_by_spec e name bucket <> "")
  /\ (forall art : gmap string value,
        art ∈ arts -> exists img : string, art !! "image" = Some (VStr img) /\ img <> "")
  /\ (get_article_image requests_get og_image cache article_url source_name).1 <> ""
  /\ cache_ok (get_article_image requests_get og_image cache article_url source_name).2
  /\ (forall calls : list (string * string),
        Forall (fun img => img <> "") (run_calls requests_get og_image ∅ calls)).
Proof.
  intros Hn Hok. split; [|split; [|split; [|split]]].
  - destruct (normalized_at _ _ _ _ Hn) as (name & Hname & Hlen & Hat).
    exists name. split; [exact Hname|]. split; [exact Hlen|].
    intros i e He. eexists. split; [apply (Hat i e He)|].
    rewrite <- resolve_image_by_spec.
    split; [apply normalized_image|apply resolve_image_nonempty].
  - intros art Hin.
    destruct (elem_of_normalized _ _ _ _ _ Hn Hin) as (name & e & _ & ->).
    exists (resolve_image e name bucket).
    split; [apply normalized_image|apply resolve_image_nonempty].
  - now apply get_article_image_nonempty.
  - now apply get_article_image_nonempty.
  - intros calls. apply run_calls_nonempty.
    intros k v Hk. rewrite lookup_empty in Hk. discriminate.
Qed.

End Images.

(** C9, as stated, fails on [published_at]: the entry's date is copied with
    its surrounding spaces. *)
Lemma published_at_not_trimmed :
  NewsGatherer._normalize_articles split_word_feed "left" "https://daily.example/rss"
  = Ret [split_word_article]
  /\ split_word_article !! "published_at" = Some (VStr " Mon, 01 Jan 2024 ")
  /\ ~ PyStr.trimmed " Mon, 01 Jan 2024 ".
Proof.
  split; [reflexivity|].
  split; [vm_compute; reflexivity|].
  intros [Hstart _]. vm_compute in Hstart. discriminate.
Qed.

(** The fields of the article of [split_word_feed]. *)
Lemma text_fields_trimmed_witness :
  NewsGatherer._normalize_articles split_word_feed "left" "https://daily.example/rss"
  = Ret [split_word_article]
  /\ exists name : string,
      NewsGatherer.source_name_is split_word_feed "https://daily.example/rss" name
      /\ length [split_word_article] = length (NewsGatherer.entries split_word_feed)
      /\ forall (i : nat) (e : NewsGatherer.entry),
          NewsGatherer.entries split_word_feed !! i = Some e ->
          exists (art : gmap string value) (t s c : string),
            [split_word_article] !! i = Some art
            /\ art !! "title" = Some (VStr t)
            /\ NewsGatherer.trimmed_from (default "No Title" (NewsGatherer.title e)) t
            /\ art !! "source" = Some (VStr s)
            /\ NewsGatherer.trimmed_from name s
            /\ art !! "content" = Some (VStr c)
            /\ NewsGatherer.trimmed_from
                 (default (default "No Content Available" (NewsGatherer.description e))
                          (NewsGatherer.summary e)) c
            /\ art !! "published_at"
               = Some (VStr (default (default "Unknown Date" (NewsGatherer.updated e))
                                     (NewsGatherer.published e))).
Proof.
  split; [reflexivity|].
  apply (text_fields_trimmed split_word_feed "left" "https://daily.example/rss"
           [split_word_article]).
  reflexivity.
Defined.

(** The images of [pictured_feed]: the media content wins over the
    thumbnail, and the entry without media gets the avatar of its source
    and bucket; the handler answers for the empty URL. *)
Lemma image_never_empty_witness :
  map (fun art : gmap string value => art !! "image") pictured_articles
  = [Some (VStr "https://img.example/c.png");
     Some (VStr ("https://ui-avatars.com/api/?name=Fox%20News&background=e3f2fd"
                 +:+ "&color=0d47a1&size=128&bold=true&font-size=0.5&length=2"))]
  /\ ((exists name : string,
         NewsGatherer.source_name_is pictured_feed "https://fox.example/rss" name
         /\ length pictured_articles = length (NewsGatherer.entries pictured_feed)
         /\ forall (i : nat) (e : NewsGatherer.entry),
             NewsGatherer.entries pictured_feed !! i = Some e ->
             exists art : gmap string value,
               pictured_articles !! i = Some art
               /\ art !! "image" = Some (VStr (NewsGatherer.image_by_spec e name "left"))
               /\ NewsGatherer.image_by_spec e name "left" <> "")
      /\ (forall art : gmap string value,
            art ∈ pictured_articles ->
            exists img : string, art !! "image" = Some (VStr img) /\ img <> "")
      /\ (ImageHandler.get_article_image (fun _ => Raise (Exception "ConnectionError"))
            (fun _ => None) ∅ "" "Unknown Source").1 <> ""
      /\ ImageHandler.cache_ok
           (ImageHandler.get_article_image (fun _ => Raise (Exception "ConnectionError"))
              (fun _ => None) ∅ "" "Unknown Source").2
      /\ (forall calls : list (string * string),
            Forall (fun img => img <> "")
              (ImageHandler.run_calls (fun _ => Raise (Exception "ConnectionError"))
                 (fun _ => None) ∅ calls))).
Proof.
  split; [vm_compute; reflexivity|].
  apply (image_never_empty (fun _ => Raise (Exception "ConnectionError")) (fun _ => None)
           pictured_feed "left" "https://fox.example/rss" pictured_articles
           ∅ "" "Unknown Source").
  - reflexivity.
  - intros k v Hk. rewrite lookup_empty in Hk. discriminate.
Defined.

(** ** The definitions at work *)

Example round1_half_even :
  PyFloat.round1 0.25 = 0.2%float /\ PyFloat.round1 2.675 = 2.7%float
  /\ PyFloat.round1 6.8 = 6.8%float /\ PyFloat.round1 (-0.01) = (-0)%float.
Proof. repeat split; vm_compute; reflexivity. Qed.

Example stance_just_below_threshold :
  OpinionClassifier._determine_stance 0.1499 = "NEUTRAL"
  /\ OpinionClassifier._determine_stance (-0.1499) = "NEUTRAL".
Proof. split; reflexivity. Qed.

Example sample_doc_score :
  ArticleScorer.analyze_article (Some (fun _ => sample_doc))
    "John said taxes always rise. Stop them"
  = {| ArticleScorer.bias_score_1_to_10 := 6.8;
       ArticleScorer.details := ArticleScorer.Details (ArticleScorer.Flt 30) 24 4 10 |}.
Proof. vm_compute. reflexivity. Qed.

Example empty_doc_score :
  ArticleScorer.analyze_article
    (Some (fun _ => {| ArticleScorer.doc_tokens := []; ArticleScorer.sents := [] |})) ""
  = {| ArticleScorer.bias_score_1_to_10 := 3;
       ArticleScorer.details := ArticleScorer.Details (ArticleScorer.Int 0) 30 0 0 |}.
Proof. vm_compute. reflexivity. Qed.

Example mocked_score :
  ArticleScorer.bias_score_1_to_10 (ArticleScorer.analyze_article None "any text") = 5%float.
Proof. reflexivity. Qed.

Example keywords_ukraine_war_crisis :
  NewsGatherer.keywords_of "Ukraine War Crisis" = ["ukraine"]
  /\ NewsGatherer.keywords_of "Breaking News" = ["breaking"; "news"]
  /\ NewsGatherer.keywords_of "war" = ["war"]
  /\ NewsGatherer.matches (NewsGatherer.keywords_of "Ukraine War Crisis")
       content_only_article = true.
Proof. repeat split; vm_compute; reflexivity. Qed.

Example domain_of_feed_url :
  NewsGatherer.domain_of "https://www.news.example/feed" = Ret "news.example"
  /\ NewsGatherer.domain_of "not a url" = Raise (Exception "IndexError").
Proof. split; reflexivity. Qed.

Example logo_for_known_source :
  (ImageHandler.get_article_image (fun _ => Raise (Exception "Timeout")) (fun _ => None)
     ∅ "ftp://nowhere" "the bbc world service").1
  = "https://upload.wikimedia.org/wikipedia/commons/e/EB/BBC.svg".
Proof. vm_compute. reflexivity. Qed.


(** * Further properties *)

(** ** More on classification *)

Section ClassificationMore.
Local Open Scope float_scope.
Import OpinionClassifier.

Variable float_repr : float -> string.
Variable analyzer : option (string -> float).

Lemma classify_dict_written (d : gmap string value) :
  classify_dict float_repr analyzer d
  = with_classification (score_of float_repr analyzer d) d.
Proof.
  unfold classify_dict, score_of, with_classification.
  destruct (get_eq_str d "political_bucket" "center"); reflexivity.
Qed.

Lemma classify_article_dict (h : gmap loc object) (a : loc) (d : gmap string value) :
  h !! a = Some (ODict d) ->
  classify_article float_repr analyzer h a
  = Ret (<[a := ODict (classify_dict float_repr analyzer d)]> h).
Proof.
  intros Ha. unfold classify_article, classify_dict. rewrite Ha.
  destruct (get_eq_str d "political_bucket" "center"); reflexivity.
Qed.

Lemma score_of_written (x : float) (d : gmap string value) :
  score_of float_repr analyzer (with_classification x d) = score_of float_repr analyzer d.
Proof.
  unfold score_of, get_eq_str, with_classification.
  rewrite !lookup_insert_ne by discriminate. reflexivity.
Qed.

Lemma with_classification_twice (x : float) (d : gmap string value) :
  with_classification x (with_classification x d) = with_classification x d.
Proof.
  unfold with_classification. apply map_eq. intros k.
  rewrite !lookup_insert. repeat case_decide; reflexivity.
Qed.

Lemma classify_dict_idempotent (d : gmap string value) :
  classify_dict float_repr analyzer (classify_dict float_repr analyzer d)
  = classify_dict float_repr analyzer d.
Proof.
  rewrite !classify_dict_written, score_of_written. apply with_classification_twice.
Qed.

Lemma classify_dict_consistent (d : gmap string value) :
  consistent (classify_dict float_repr analyzer d).
Proof.
  rewrite classify_dict_written. exists (score_of float_repr analyzer d).
  unfold with_classification. split.
  - rewrite lookup_insert_ne by discriminate. apply lookup_insert_eq.
  - apply lookup_insert_eq.
Qed.

(** The loop, location by location: exactly the dicts of the list are
    rewritten, each as one iteration rewrites it, however often it is
    listed. *)
Lemma classify_loop_exact (items : list loc) :
  forall (h h' : gmap loc object),
    classify_loop float_repr analyzer items h = Ret h' ->
    forall l : loc,
      h' !! l = match h !! l with
                | Some (ODict d) =>
                    Some (ODict (if decide (l ∈ items)
                                 then classify_dict float_repr analyzer d else d))
                | o => o
                end.
Proof.
  induction items as [|a rest IH]; intros h h' Hrun l.
  - injection Hrun as <-. destruct (h !! l) as [[d|its]|]; reflexivity.
  - cbn [classify_loop] in Hrun.
    destruct (classify_article float_repr analyzer h a) as [h1|e] eqn:Hstep;
      [|discriminate].
    cbn in Hrun. rewrite (IH h1 h' Hrun l).
    destruct (classify_article_inv _ _ _ _ _ Hstep) as (d0 & _ & _ & Ha & _ & _).
    rewrite (classify_article_dict h a d0 Ha) in Hstep. injection Hstep as <-.
    destruct (decide (l = a)) as [->|Hne].
    + rewrite lookup_insert_eq, Ha.
      rewrite (decide_True (P := a ∈ a :: rest)) by (now left).
      destruct (decide (a ∈ rest)); [now rewrite classify_dict_idempotent|reflexivity].
    + rewrite lookup_insert_ne by congruence.
      destruct (h !! l) as [[d|its]|]; try reflexivity.
      destruct (decide (l ∈ rest)) as [Hin|Hnin].
      * rewrite decide_True by (now right). reflexivity.
      * rewrite decide_False; [reflexivity|].
        intros [?|?]%elem_of_cons; [congruence|contradiction].
Qed.

Lemma all_dicts_after (items : list loc) (h h' : gmap loc object) :
  classify_loop float_repr analyzer items h = Ret h' ->
  forall others : list loc, all_dicts h others -> all_dicts h' others.
Proof.
  intros Hrun others. unfold all_dicts. rewrite !forallb_forall.
  intros Hall b Hb. specialize (Hall b Hb). unfold is_dict in *.
  rewrite (classify_loop_exact items h h' Hrun b).
  destruct (h !! b) as [[d|its]|]; [reflexivity|discriminate..].
Qed.

Lemma app_cons (c : ascii) (a b : string) : String c a +:+ b = String c (a +:+ b).
Proof. reflexivity. Qed.

Lemma app_empty (b : string) : "" +:+ b = b.
Proof. reflexivity. Qed.

Lemma blank_app (a b : string) : blank (a +:+ b) = blank a && blank b.
Proof.
  induction a as [|c a IH]; [reflexivity|].
  rewrite app_cons. cbn [blank]. rewrite IH. now rewrite andb_assoc.
Qed.

Lemma strip_blank (s : string) : blank s = true -> PyStr.strip s = "".
Proof.
  unfold PyStr.strip. induction s as [|c s IH]; [reflexivity|].
  cbn [blank PyStr.lstrip]. intros [Hc Hs]%andb_true_iff. rewrite Hc. auto.
Qed.

Lemma blank_field_format (d : gmap string value) (key : string) :
  blank_field d key ->
  blank (format float_repr (default (VStr "") (d !! key))) = true.
Proof.
  unfold blank_field. destruct (d !! key) as [[s|f]|]; cbn; [auto|contradiction|auto].
Qed.

Lemma score_of_blank (d : gmap string value) :
  blank_field d "title" -> blank_field d "content" ->
  score_of float_repr analyzer d = 0.
Proof.
  intros Ht Hc. unfold score_of.
  destruct (get_eq_str d "political_bucket" "center"); [reflexivity|].
  rewrite strip_blank; [reflexivity|].
  rewrite !blank_app, (blank_field_format d "title" Ht), (blank_field_format d "content" Hc).
  reflexivity.
Qed.

(** X1: classifying a list a second time changes nothing: the heap after
    the second call is the heap after the first. *)
Theorem classify_articles_idempotent
  (h : gmap loc object) (articles : loc) (items : list loc) :
  h !! articles = Some (OList items) -> all_dicts h items ->
  exists h', classify_articles float_repr analyzer h articles = Ret (h', articles)
             /\ classify_articles float_repr analyzer h' articles = Ret (h', articles).
Proof.
  intros Hlist Hall.
  destruct (classify_articles_runs float_repr analyzer h articles items Hlist Hall)
    as (h' & Hrun & Hcall).
  exists h'. split; [exact Hcall|].
  assert (Hlist' : h' !! articles = Some (OList items)).
  { rewrite (classify_loop_exact items h h' Hrun articles), Hlist. reflexivity. }
  pose proof (all_dicts_after items h h' Hrun items Hall) as Hall'.
  destruct (classify_articles_runs float_repr analyzer h' articles items Hlist' Hall')
    as (h'' & Hrun' & Hcall').
  rewrite Hcall'. f_equal. f_equal. apply map_eq. intros l.
  rewrite (classify_loop_exact items h' h'' Hrun' l).
  rewrite (classify_loop_exact items h h' Hrun l).
  destruct (h !! l) as [[d|its]|]; try reflexivity.
  destruct (decide (l ∈ items)); [now rewrite classify_dict_idempotent|reflexivity].
Qed.

(** X2: after [classify_articles] every article of the list carries a
    score and the stance that [_determine_stance] gives for that score,
    center articles included. *)
Theorem stance_matches_score
  (h : gmap loc object) (articles : loc) (items : list loc) :
  h !! articles = Some (OList items) -> all_dicts h items ->
  exists h', classify_articles float_repr analyzer h articles = Ret (h', articles)
             /\ forall a : loc, a ∈ items ->
                 exists d', h' !! a = Some (ODict d') /\ consistent d'.
Proof.
  intros Hlist Hall.
  destruct (classify_articles_runs float_repr analyzer h articles items Hlist Hall)
    as (h' & Hrun & Hcall).
  exists h'. split; [exact Hcall|]. intros a Hin.
  destruct (all_dicts_elem h items a Hall Hin) as [d Ha].
  exists (classify_dict float_repr analyzer d). split; [|apply classify_dict_consistent].
  rewrite (classify_loop_exact items h h' Hrun a), Ha, decide_True by exact Hin.
  reflexivity.
Qed.

(** X3: an article of the list whose title and content are missing or hold
    only whitespace gets the score 0.0 and the stance NEUTRAL, whatever
    its bucket and whatever the sentiment model would say. *)
Theorem blank_text_is_neutral
  (h : gmap loc object) (articles : loc) (items : list loc)
  (a : loc) (d : gmap string value) :
  h !! articles = Some (OList items) -> all_dicts h items ->
  a ∈ items -> h !! a = Some (ODict d) ->
  blank_field d "title" -> blank_field d "content" ->
  exists h' d',
    classify_articles float_repr analyzer h articles = Ret (h', articles)
    /\ h' !! a = Some (ODict d') /\ forced_neutral d'.
Proof.
  intros Hlist Hall Hin Ha Ht Hc.
  destruct (classify_articles_runs float_repr analyzer h articles items Hlist Hall)
    as (h' & Hrun & Hcall).
  exists h', (classify_dict float_repr analyzer d). split; [exact Hcall|]. split.
  - rewrite (classify_loop_exact items h h' Hrun a), Ha, decide_True by exact Hin.
    reflexivity.
  - rewrite classify_dict_written, (score_of_blank d Ht Hc).
    unfold with_classification, forced_neutral. split.
    + rewrite lookup_insert_ne by discriminate. apply lookup_insert_eq.
    + apply lookup_insert_eq.
Qed.

Lemma keywords_present_bound (words : list string) (t : string) :
  keywords_present words t <= length words.
Proof. apply length_filter. Qed.

Lemma fallback_table (p n : nat) :
  p <= 15 -> n <= 18 -> fallback_stance p n = stance_by_majority p n.
Proof.
  intros Hp Hn.
  assert (Hok : fallback_table_ok = true) by (vm_compute; reflexivity).
  unfold fallback_table_ok in Hok. rewrite forallb_forall in Hok.
  specialize (Hok p). rewrite forallb_forall in Hok.
  apply String.eqb_eq, Hok; apply in_seq; lia.
Qed.

End ClassificationMore.

(** X4: without the sentiment model the stance is decided by majority:
    IN_FAVOR when more positive than negative keywords occur in the text,
    AGAINST when fewer, NEUTRAL when as many (none at all included). *)
Theorem fallback_stance_by_majority (text : string) :
  OpinionClassifier._determine_stance (OpinionClassifier._analyze_sentiment None text)
  = OpinionClassifier.stance_by_majority
      (OpinionClassifier.keywords_present OpinionClassifier.positive_words (PyStr.lower text))
      (OpinionClassifier.keywords_present OpinionClassifier.negative_words (PyStr.lower text)).
Proof.
  unfold OpinionClassifier._analyze_sentiment. cbv zeta.
  rewrite add_hits_count, sub_hits_count.
  apply fallback_table; apply keywords_present_bound.
Qed.

(** ** More on the configuration and the tasks *)

Section Configuration.
Import NewsGatherer.

Variable feedparser : option (string -> outcome feed_data).
Variable as_completed : list (string * string) -> list (string * string).

Lemma has_key_app (a b : list (string * list string)) (key : string) :
  has_key (a ++ b) key = has_key a key || has_key b key.
Proof. apply existsb_app. Qed.

Lemma build_tasks_app (a b : list (string * list string)) :
  build_tasks (a ++ b) = build_tasks a ++ build_tasks b.
Proof. apply flat_map_app. Qed.

Lemma simple_bucket_name_enum (bucket : string) :
  simple_bucket_name bucket = "right" \/ simple_bucket_name bucket = "left"
  \/ simple_bucket_name bucket = "center".
Proof.
  unfold simple_bucket_name.
  destruct (PyStr.contains "right" bucket); [auto|].
  destruct (PyStr.contains "left" bucket); auto.
Qed.

Lemma elem_of_build_tasks (sources : list (string * list string)) (task : string * string) :
  task ∈ build_tasks sources
  <-> exists key url_list,
      (key, url_list) ∈ sources /\ task.1 ∈ url_list /\ task.2 = simple_bucket_name key.
Proof.
  unfold build_tasks. rewrite elem_of_flat_map. split.
  - intros ([key url_list] & Hsrc & Hin).
    apply list_elem_of_In, in_map_iff in Hin as (url & <- & Hurl).
    exists key, url_list. split; [exact Hsrc|].
    split; [apply list_elem_of_In, Hurl|reflexivity].
  - intros (key & url_list & Hsrc & Hurl & Hb). exists (key, url_list).
    split; [exact Hsrc|]. apply list_elem_of_In, in_map_iff.
    exists task.1. split; [rewrite <- Hb; now destruct task|].
    apply list_elem_of_In, Hurl.
Qed.

Lemma add_missing_app (data : list (string * list string)) (key : string) :
  add_missing data key = data ++ (if has_key data key then [] else [(key, [])]).
Proof. unfold add_missing. destruct (has_key data key); [now rewrite app_nil_r|reflexivity]. Qed.

Lemma load_config_added (data : list (string * list string)) :
  _load_config (Ret data)
  = Ret (data
         ++ (if has_key data "right_leaning_sources" then [] else [("right_leaning_sources", [])])
         ++ (if has_key data "left_leaning_sources" then [] else [("left_leaning_sources", [])])
         ++ (if has_key data "center_sources" then [] else [("center_sources", [])])).
Proof.
  unfold _load_config, required_keys. cbn [fold_left].
  rewrite !add_missing_app, !has_key_app.
  destruct (has_key data "right_leaning_sources"),
    (has_key data "left_leaning_sources"), (has_key data "center_sources");
    cbn; rewrite <- ?app_assoc; reflexivity.
Qed.

(** X5: a configuration that loads comes back with its entries as they
    were, in their order, followed by an empty list for each of the three
    required keys it lacks; so the three keys are always there, and the
    added ones bring no task. *)
Theorem load_config_completes_keys (data : list (string * list string)) :
  exists added : list (string * list string),
    _load_config (Ret data) = Ret (data ++ added)
    /\ (forall key, key ∈ required_keys -> has_key (data ++ added) key = true)
    /\ (forall item, item ∈ added ->
          item.2 = [] /\ item.1 ∈ required_keys /\ has_key data item.1 = false)
    /\ build_tasks (data ++ added) = build_tasks data.
Proof.
  eexists. split; [apply load_config_added|].
  destruct (has_key data "right_leaning_sources") eqn:Hr,
    (has_key data "left_leaning_sources") eqn:Hl,
    (has_key data "center_sources") eqn:Hc; cbn [app].
  all: split;
    [intros key Hkey; rewrite has_key_app;
     repeat (apply elem_of_cons in Hkey as [->|Hkey]); try (now inversion Hkey);
     rewrite ?Hr, ?Hl, ?Hc; reflexivity|].
  all: split;
    [intros item Hitem;
     repeat (apply elem_of_cons in Hitem as [->|Hitem]); try (now inversion Hitem);
     cbn [fst snd]; (split; [reflexivity|]);
     (split; [unfold required_keys; repeat constructor|assumption])|].
  all: rewrite build_tasks_app; cbn; now rewrite app_nil_r.
Qed.

End Configuration.

(** ** More on gathering *)

Section GatheringMore.
Import NewsGatherer.

Variable feedparser : option (string -> outcome feed_data).
Variable as_completed : list (string * string) -> list (string * string).

Lemma normalized_bucket (e : entry) (source_name bucket source_url : string) :
  normalize_entry e source_name bucket source_url !! "political_bucket" = Some (VStr bucket).
Proof.
  unfold normalize_entry. cbv zeta.
  repeat (rewrite lookup_insert_ne by discriminate). apply lookup_insert_eq.
Qed.

Lemma filter_by_topic_perm (topic : option string) (l1 l2 : list (gmap string value)) :
  l1 ≡ₚ l2 -> filter_by_topic topic l1 ≡ₚ filter_by_topic topic l2.
Proof.
  intros Hperm. unfold filter_by_topic. destruct topic as [t|]; [|exact Hperm].
  destruct (PyStr.truthy t); [|exact Hperm]. now rewrite Hperm.
Qed.

Lemma filter_by_topic_length (topic : option string) (l : list (gmap string value)) :
  length (filter_by_topic topic l) <= length l.
Proof.
  unfold filter_by_topic. destruct topic as [t|]; [|reflexivity].
  destruct (PyStr.truthy t); [apply length_filter|reflexivity].
Qed.

(** X6: when the configuration file is missing or is not valid JSON, the
    gatherer has no sources and [gather_articles] returns the empty list,
    whatever the topic; any other exception of the load is raised on. *)
Theorem config_error_gathers_nothing (kind : string) (topic : option string) :
  (forall tasks, as_completed tasks ≡ₚ tasks) ->
  (kind = "FileNotFoundError" \/ kind = "JSONDecodeError" ->
   _load_config (Raise (Exception kind)) = Ret []
   /\ gather_from_config feedparser as_completed (Raise (Exception kind)) topic = Ret [])
  /\ (kind <> "FileNotFoundError" -> kind <> "JSONDecodeError" ->
      gather_from_config feedparser as_completed (Raise (Exception kind)) topic
      = Raise (Exception kind)).
Proof.
  intros Hperm. unfold gather_from_config, _load_config. split.
  - assert (Hempty : as_completed (build_tasks []) = []).
    { apply Permutation_nil_r. apply (Hperm []). }
    intros [-> | ->]; cbn; (split; [reflexivity|]);
      rewrite gather_articles_eq, Hempty; cbn;
      destruct topic as [t|]; cbn; try destruct (PyStr.truthy t); reflexivity.
  - intros Hf Hj.
    apply String.eqb_neq in Hf, Hj. rewrite Hf, Hj. reflexivity.
Qed.

Lemma simple_bucket_name_of_key (key : string) :
  bucket_of_key key (simple_bucket_name key).
Proof.
  unfold bucket_of_key, simple_bucket_name.
  destruct (PyStr.contains "right" key); [auto|].
  destruct (PyStr.contains "left" key); auto.
Qed.

(** X7: every article returned by [gather_articles] comes from the feed
    of a URL listed under a configuration key, namely from the
    normalization of what the fetch of that URL gave, and its
    [political_bucket] is the bucket of that key: "right" when the key
    contains "right", else "left" when it contains "left", else
    "center". *)
Theorem gathered_bucket_is_known
  (sources : list (string * list string)) (topic : option string)
  (result : list (gmap string value)) (art : gmap string value) :
  (forall tasks, as_completed tasks ≡ₚ tasks) ->
  gather_articles feedparser as_completed sources topic = Ret result ->
  art ∈ result ->
  exists (key : string) (url_list : list string) (url : string) (fd : feed_data)
         (normalized : list (gmap string value)) (bucket : string),
    (key, url_list) ∈ sources /\ url ∈ url_list
    /\ _fetch_articles feedparser url = Ret (Some fd)
    /\ _normalize_articles fd bucket url = Ret normalized
    /\ art ∈ normalized
    /\ art !! "political_bucket" = Some (VStr bucket)
    /\ bucket_of_key key bucket.
Proof.
  intros Hperm Hg Hin. rewrite gather_articles_eq in Hg. injection Hg as <-.
  rewrite sort_by_perm in Hin.
  apply elem_of_filter_by_topic in Hin as [Hin _].
  apply elem_of_flat_map in Hin as (task & Htask & Hin).
  rewrite Hperm in Htask.
  apply elem_of_build_tasks in Htask as (key & url_list & Hsrc & Hurl & Hb).
  apply elem_of_contribution in Hin as (fd & normalized & Hf & Hn & Hin).
  exists key, url_list, task.1, fd, normalized, task.2.
  split; [exact Hsrc|]. split; [exact Hurl|]. split; [exact Hf|].
  split; [exact Hn|]. split; [exact Hin|].
  split; [|rewrite Hb; apply simple_bucket_name_of_key].
  destruct (elem_of_normalized _ _ _ _ _ Hn Hin) as (name & e & _ & ->).
  apply normalized_bucket.
Qed.

(** X8: [gather_articles] neither loses nor duplicates an article: its
    result is a rearrangement of the articles of all tasks that pass the
    topic filter, so without a topic of all the articles collected. *)
Theorem gather_keeps_every_article
  (sources : list (string * list string)) (topic : option string) :
  (forall tasks, as_completed tasks ≡ₚ tasks) ->
  exists result,
    gather_articles feedparser as_completed sources topic = Ret result
    /\ result ≡ₚ filter_by_topic topic
                   (flat_map (contribution feedparser) (build_tasks sources))
    /\ length result <= length (flat_map (contribution feedparser) (build_tasks sources))
    /\ (topic = None ->
        result ≡ₚ flat_map (contribution feedparser) (build_tasks sources)).
Proof.
  intros Hperm. eexists. split; [apply gather_articles_eq|].
  assert (Hall : flat_map (contribution feedparser) (as_completed (build_tasks sources))
                 ≡ₚ flat_map (contribution feedparser) (build_tasks sources)).
  { apply Permutation_flat_map, Hperm. }
  assert (Hres : sort_by image_key
                   (filter_by_topic topic
                      (flat_map (contribution feedparser)
                         (as_completed (build_tasks sources))))
                 ≡ₚ filter_by_topic topic
                      (flat_map (contribution feedparser) (build_tasks sources))).
  { rewrite sort_by_perm. apply filter_by_topic_perm, Hall. }
  split; [exact Hres|]. split.
  - rewrite Hres. apply filter_by_topic_length.
  - intros ->. exact Hres.
Qed.

(** X9: when the feed parser could not be imported, [gather_articles]
    returns the empty list for every configuration and topic. *)
Theorem no_feedparser_gathers_nothing
  (sources : list (string * list string)) (topic : option string) :
  gather_articles None as_completed sources topic = Ret [].
Proof.
  rewrite gather_articles_eq.
  assert (Hnone : forall tasks, flat_map (contribution None) tasks = []).
  { induction tasks as [|[url bucket] rest IH]; [reflexivity|]. cbn. exact IH. }
  rewrite Hnone. destruct topic as [t|]; cbn; try destruct (PyStr.truthy t); reflexivity.
Qed.

End GatheringMore.

(** ** More on the topic keywords *)

Section Keywords.
Import PyStr NewsGatherer.

Variable feedparser : option (string -> outcome feed_data).
Variable as_completed : list (string * string) -> list (string * string).

Lemma lower_char_idempotent (c : ascii) : lower_char (lower_char c) = lower_char c.
Proof. destruct c as [[] [] [] [] [] [] [] []]; reflexivity. Qed.

Lemma isspace_lower_char (c : ascii) : isspace (lower_char c) = isspace c.
Proof. destruct c as [[] [] [] [] [] [] [] []]; reflexivity. Qed.

Lemma lower_idempotent (s : string) : lower (lower s) = lower s.
Proof.
  induction s as [|c s IH]; [reflexivity|].
  cbn [lower]. now rewrite lower_char_idempotent, IH.
Qed.

Lemma lower_app (a b : string) : lower (a +:+ b) = lower a +:+ lower b.
Proof.
  induction a as [|c a IH]; [reflexivity|].
  change (String c a +:+ b) with (String c (a +:+ b)). cbn [lower]. rewrite IH. reflexivity.
Qed.

Lemma truthy_lower (s : string) : truthy (lower s) = truthy s.
Proof. destruct s; reflexivity. Qed.

Lemma split_go_lower (s : string) :
  forall cur : string, split_go (lower cur) (lower s) = map lower (split_go cur s).
Proof.
  induction s as [|c s IH]; intros cur; cbn [lower split_go].
  - rewrite truthy_lower. destruct (truthy cur); reflexivity.
  - rewrite isspace_lower_char, truthy_lower. destruct (isspace c).
    + rewrite map_app, <- (IH ""). destruct (truthy cur); reflexivity.
    + rewrite <- IH, lower_app. reflexivity.
Qed.

Lemma split_lower (s : string) : split (lower s) = map lower (split s).
Proof. apply (split_go_lower s ""). Qed.

Lemma map_lower_idempotent (l : list string) : map lower (map lower l) = map lower l.
Proof.
  induction l as [|w l IH]; [reflexivity|].
  cbn [map]. now rewrite lower_idempotent, IH.
Qed.

(** The keywords are a function of the lowercased topic. *)
Lemma keywords_by_spec_lower (topic : string) :
  keywords_by_spec (lower topic) = keywords_by_spec topic.
Proof.
  unfold keywords_by_spec. cbv zeta.
  rewrite split_lower, lower_idempotent, map_lower_idempotent. reflexivity.
Qed.

Lemma keywords_of_lower (topic : string) : keywords_of (lower topic) = keywords_of topic.
Proof. rewrite !keywords_of_by_spec. apply keywords_by_spec_lower. Qed.

(** X10: the topic filter does not see the case of the topic: two topics
    that agree once lowercased make [gather_articles] return the same list. *)
Theorem topic_case_is_ignored
  (sources : list (string * list string)) (topic1 topic2 : string) :
  lower topic1 = lower topic2 ->
  gather_articles feedparser as_completed sources (Some topic1)
  = gather_articles feedparser as_completed sources (Some topic2).
Proof.
  intros Hlow. rewrite !gather_articles_eq. do 2 f_equal.
  unfold filter_by_topic.
  rewrite <- (truthy_lower topic1), <- (truthy_lower topic2), Hlow.
  rewrite <- (keywords_of_lower topic1), <- (keywords_of_lower topic2), Hlow.
  reflexivity.
Qed.

Lemma long_nonempty (w : string) : 3 < String.length w -> w <> "".
Proof. intros Hlen ->. cbn in Hlen. lia. Qed.

(** X11: a non-empty topic always yields at least one keyword, and every
    keyword is a non-empty lowercase string; so the filter never keeps an
    article on an empty match. *)
Theorem keywords_are_usable (topic : string) :
  topic <> "" ->
  keywords_of topic <> []
  /\ forall k, k ∈ keywords_of topic -> k <> "" /\ lower k = k.
Proof.
  intros Htopic. rewrite keywords_of_by_spec. unfold keywords_by_spec. cbv zeta.
  set (raw := filter (fun w => 3 < String.length w) (map lower (split topic))).
  assert (Hraw : forall k, k ∈ raw -> k <> "" /\ lower k = k).
  { intros k [Hlen Hk]%list_elem_of_filter. split; [now apply long_nonempty|].
    apply list_elem_of_In, in_map_iff in Hk as (w & <- & _). apply lower_idempotent. }
  destruct (filter (fun k => is_stop_word k = false) raw) as [|k0 kept] eqn:Hkept.
  - destruct raw as [|r raw'] eqn:Hr.
    + split; [discriminate|]. intros k ->%list_elem_of_singleton.
      split; [|apply lower_idempotent].
      destruct topic; [congruence|discriminate].
    + split; [discriminate|exact Hraw].
  - split; [discriminate|]. intros k Hk. apply Hraw.
    rewrite <- Hkept in Hk. now apply list_elem_of_filter in Hk as [_ Hk].
Qed.

End Keywords.

(** ** More on normalization *)

Section NormalizationMore.
Import NewsGatherer.

Lemma normalized_dom (e : entry) (source_name bucket source_url : string) :
  dom (normalize_entry e source_name bucket source_url) = article_keys.
Proof.
  unfold normalize_entry, article_keys. cbv zeta.
  rewrite !dom_insert_L, dom_empty_L. set_solver.
Qed.

Lemma split_on_go_length (sep : ascii) (s : string) :
  forall cur : string,
    length (PyStr.split_on_go sep cur s) = S (count_char sep s).
Proof.
  induction s as [|c s IH]; intros cur; cbn [PyStr.split_on_go count_char]; [reflexivity|].
  destruct (Ascii.eqb c sep); cbn [length]; rewrite IH; reflexivity.
Qed.

Lemma domain_of_succeeds (source_url : string) :
  (exists host, domain_of source_url = Ret host) <-> 2 <= count_char "/" source_url.
Proof.
  unfold domain_of, PyStr.split_on.
  pose proof (split_on_go_length "/" source_url "") as Hlen.
  destruct (PyStr.split_on_go "/" "" source_url !! 2) as [host|] eqn:Hhost.
  - apply lookup_lt_Some in Hhost. split; [lia|eauto].
  - apply lookup_ge_None in Hhost. split; [intros [h Hh]; discriminate|lia].
Qed.

Lemma domain_of_fails (source_url : string) :
  count_char "/" source_url < 2 -> domain_of source_url = Raise (Exception "IndexError").
Proof.
  intros Hcount. unfold domain_of, PyStr.split_on.
  pose proof (split_on_go_length "/" source_url "") as Hlen.
  destruct (PyStr.split_on_go "/" "" source_url !! 2) as [host|] eqn:Hhost; [|reflexivity].
  apply lookup_lt_Some in Hhost. lia.
Qed.

(** X12: normalization turns the entries into as many articles, in the
    same order, each with exactly the seven keys title, source,
    political_bucket, published_at, content, link and image, and with the
    bucket it was called with. *)
Theorem normalized_articles_shape
  (fd : feed_data) (bucket source_url : string) (arts : list (gmap string value)) :
  _normalize_articles fd bucket source_url = Ret arts ->
  length arts = length (entries fd)
  /\ (forall art, art ∈ arts ->
        dom art = article_keys /\ art !! "political_bucket" = Some (VStr bucket))
  /\ exists source_name,
      forall (i : nat) (e : entry),
        entries fd !! i = Some e ->
        arts !! i = Some (normalize_entry e source_name bucket source_url).
Proof.
  intros Hn.
  destruct (normalize_articles_inv _ _ _ _ Hn) as (source_name & _ & Harts).
  split; [rewrite Harts; apply length_map|]. split.
  - intros art Hin.
    destruct (elem_of_normalized _ _ _ _ _ Hn Hin) as (name & e & _ & ->).
    split; [apply normalized_dom|apply normalized_bucket].
  - exists source_name. intros i e He. rewrite Harts.
    change (map ?f ?l) with (f <$> l). rewrite list_lookup_fmap, He. reflexivity.
Qed.

(** X13: normalization goes through exactly when the feed has a title or
    the URL has at least two slashes (a host part to take the name from);
    otherwise it raises IndexError and the feed, whatever its entries,
    adds nothing to the gathered articles. *)
Theorem normalization_needs_a_name (fd : feed_data) (bucket source_url : string) :
  ((exists arts, _normalize_articles fd bucket source_url = Ret arts)
   <-> (is_Some (feed_title fd) \/ 2 <= count_char "/" source_url))
  /\ (feed_title fd = None -> count_char "/" source_url < 2 ->
      _normalize_articles fd bucket source_url = Raise (Exception "IndexError")
      /\ forall parse : string -> outcome feed_data,
          parse source_url = Ret fd ->
          contribution (Some parse) (source_url, bucket) = []).
Proof.
  unfold _normalize_articles. split.
  - destruct (feed_title fd) as [t|]; cbn.
    + split; [intros _; left; eauto|intros _; eauto].
    + rewrite <- domain_of_succeeds. split.
      * intros [arts Harts]. right.
        destruct (domain_of source_url) as [host|e]; [eauto|discriminate].
      * intros [[t Ht]|[host ->]]; [discriminate|]. cbn. eauto.
  - intros Ht Hcount. rewrite Ht, (domain_of_fails _ Hcount). cbn.
    split; [reflexivity|]. intros parse Hparse.
    unfold contribution, _fetch_articles. rewrite Hparse. cbn.
    unfold _normalize_articles. rewrite Ht, (domain_of_fails _ Hcount). reflexivity.
Qed.

Lemma avatar_is_placeholder (source_name bucket : string) :
  PyStr.contains "ui-avatars.com" (avatar_url source_name bucket) = true.
Proof.
  unfold avatar_url.
  destruct (String.eqb bucket "left"), (String.eqb bucket "right"); reflexivity.
Qed.

(** X14: an entry none of whose image candidates is usable gets the
    generated avatar, and the sort key of its article is 1: it is placed
    after every article with a real image. *)
Theorem avatar_sorts_last (e : entry) (source_name bucket source_url : string) :
  no_image e ->
  get_str (normalize_entry e source_name bucket source_url) "image"
  = avatar_url source_name bucket
  /\ image_key (normalize_entry e source_name bucket source_url) = 1.
Proof.
  intros Hno.
  assert (Himg : get_str (normalize_entry e source_name bucket source_url) "image"
                 = avatar_url source_name bucket).
  { unfold get_str. rewrite normalized_image, resolve_image_by_order.
    unfold image_by_order. unfold no_image in Hno. rewrite Hno. reflexivity. }
  split; [exact Himg|].
  unfold image_key. rewrite Himg, avatar_is_placeholder. reflexivity.
Qed.

End NormalizationMore.

(** ** More on the image handler *)

Section ImagesMore.
Import ImageHandler.

Variable requests_get : string -> outcome response.
Variable og_image : string -> option string.

Lemma find_logo_static (logos : list (string * string)) (source_name : string)
  (image_url : option string) (url : string) :
  find_logo logos source_name image_url = Some url ->
  url ∈ map snd logos \/ image_url = Some url.
Proof.
  induction logos as [|[key logo] rest IH]; cbn [find_logo map snd]; [auto|].
  destruct (PyStr.contains _ _).
  - intros [= <-]. left. now left.
  - intros [Hin|Himg]%IH; [left; now right|now right].
Qed.

(** X15: a repeated call for the same URL and source name returns the
    same image and leaves the cache as it is, whatever the network
    answers the second time. *)
Theorem image_is_memoized
  (requests_get' : string -> outcome response) (og_image' : string -> option string)
  (cache : gmap (string * string) string) (article_url source_name : string) :
  get_article_image requests_get' og_image'
    (get_article_image requests_get og_image cache article_url source_name).2
    article_url source_name
  = get_article_image requests_get og_image cache article_url source_name.
Proof.
  unfold get_article_image at 2 3.
  destruct (cache !! (article_url, source_name)) as [cached|] eqn:Hc; cbn [fst snd].
  - unfold get_article_image. rewrite Hc. reflexivity.
  - unfold get_article_image. rewrite lookup_insert_eq. reflexivity.
Qed.

(** X16: for an article URL that does not start with "http", the empty
    URL included, no request is made: the answer is the same whatever the
    network would do. *)
Theorem no_request_without_http
  (requests_get' : string -> outcome response) (og_image' : string -> option string)
  (cache : gmap (string * string) string) (article_url source_name : string) :
  PyStr.startswith article_url "http" = false ->
  get_article_image requests_get og_image cache article_url source_name
  = get_article_image requests_get' og_image' cache article_url source_name.
Proof.
  intros Hhttp. unfold get_article_image, scrape.
  rewrite Hhttp, andb_false_r. reflexivity.
Qed.

(** X17: on a cache miss the image is the og:image of a page that was
    fetched with status 200 from an "http" URL, or else one of the static
    images (a source logo or the generic placeholder); when the request
    raises it is a static image. *)
Theorem image_on_miss
  (cache : gmap (string * string) string) (article_url source_name : string) :
  cache !! (article_url, source_name) = None ->
  let img := (get_article_image requests_get og_image cache article_url source_name).1 in
  (img ∈ static_images
   \/ exists r, PyStr.startswith article_url "http" = true
                /\ requests_get article_url = Ret r
                /\ status_code r = 200%Z
                /\ og_image (body r) = Some img)
  /\ ((exists e, requests_get article_url = Raise e) -> img ∈ static_images).
Proof.
  intros Hmiss. unfold get_article_image. rewrite Hmiss. cbn [fst].
  assert (Hdefault : default_logo ∈ static_images).
  { unfold static_images, SOURCE_LOGOS. cbn [map snd]. do 9 right. left. }
  set (found := if NewsGatherer.falsy _ then _ else _).
  assert (Hfound : forall url, found = Some url ->
            url ∈ static_images \/ scrape requests_get og_image article_url = Some url).
  { intros url. subst found.
    destruct (NewsGatherer.falsy (scrape requests_get og_image article_url)); [|auto].
    apply find_logo_static. }
  assert (Hscrape : forall url, scrape requests_get og_image article_url = Some url ->
            exists r, PyStr.startswith article_url "http" = true
                      /\ requests_get article_url = Ret r
                      /\ status_code r = 200%Z
                      /\ og_image (body r) = Some url).
  { intros url. unfold scrape.
    destruct (PyStr.truthy article_url); cbn [andb]; [|discriminate].
    destruct (PyStr.startswith article_url "http"); [|discriminate].
    destruct (requests_get article_url) as [r|e]; [|discriminate].
    destruct (status_code r =? 200)%Z eqn:Hs; [|discriminate].
    apply Z.eqb_eq in Hs. eauto. }
  split.
  - destruct found as [url|]; [|now left].
    destruct (PyStr.truthy url); [|now left].
    destruct (Hfound url eq_refl) as [Hs|Hs]; [now left|right; auto].
  - intros [e He].
    destruct found as [url|]; [|exact Hdefault].
    destruct (PyStr.truthy url); [|exact Hdefault].
    destruct (Hfound url eq_refl) as [Hs|Hs]; [exact Hs|].
    apply Hscrape in Hs as (r & _ & Hr & _). congruence.
Qed.

(** X18: a call never overwrites a cached image and writes at most the
    entry of its own URL and source name. *)
Theorem cache_only_grows
  (cache : gmap (string * string) string) (article_url source_name : string) :
  let cache' := (get_article_image requests_get og_image cache article_url source_name).2 in
  (forall k v, cache !! k = Some v -> cache' !! k = Some v)
  /\ (forall k, k <> (article_url, source_name) -> cache' !! k = cache !! k)
  /\ cache' !! (article_url, source_name)
     = Some (get_article_image requests_get og_image cache article_url source_name).1.
Proof.
  unfold get_article_image.
  destruct (cache !! (article_url, source_name)) as [cached|] eqn:Hc; cbn [fst snd].
  - auto.
  - split; [|split].
    + intros k v Hk. rewrite lookup_insert_ne; [exact Hk|congruence].
    + intros k Hk. now rewrite lookup_insert_ne.
    + apply lookup_insert_eq.
Qed.

End ImagesMore.

(** ** More on the bias score *)

Section ScorerMore.
Local Open Scope float_scope.
Import ArticleScorer.

Lemma token_sources_empty (t : token) :
  mem (lemma_ t) speaking_verbs = false -> token_sources t = ∅.
Proof. unfold token_sources. now intros ->. Qed.

Lemma union_list_empty (l : list (gset string)) :
  (forall x, x ∈ l -> x = ∅) -> ⋃ l = ∅.
Proof.
  induction l as [|x l IH]; intros Hall; [reflexivity|].
  cbn [union_list foldr]. rewrite (Hall x) by now left.
  rewrite union_empty_l_L. apply IH. intros y Hy. apply Hall. now right.
Qed.

Lemma collect_sources_empty (d : doc) : no_speaking_verb d -> collect_sources d = ∅.
Proof.
  intros Hno. unfold collect_sources. apply union_list_empty.
  intros x (sent & <- & Hsent)%list_elem_of_In%in_map_iff.
  apply union_list_empty.
  intros y (t & <- & Ht)%list_elem_of_In%in_map_iff.
  apply token_sources_empty, (Hno sent t); now apply list_elem_of_In.
Qed.

(** X19: the attribution sub-score depends on the number of distinct
    attributed speakers only: 30.0 for none, 24.0 for one, 12.0 for two
    and 0.0 for three or more; a document without a speaking verb gets
    the full 30.0. *)
Theorem attribution_by_speakers (d : doc) :
  metric_attribution_balance d 30 = attribution_by_sources (size (collect_sources d))
  /\ (no_speaking_verb d -> metric_attribution_balance d 30 = 30).
Proof.
  assert (Htable : metric_attribution_balance d 30
                   = attribution_by_sources (size (collect_sources d))).
  { unfold metric_attribution_balance, attribution_by_sources. cbv zeta.
    destruct (size (collect_sources d)) as [|[|[|n]]]; vm_compute; reflexivity. }
  split; [exact Htable|].
  intros Hno. rewrite Htable, (collect_sources_empty d Hno), size_empty. reflexivity.
Qed.

Lemma normalize_saturates (max_val weight : Z) (full : float) (upto count : nat) :
  saturated_from max_val weight full upto = true ->
  Z.to_nat max_val <= count < Z.to_nat max_val + upto -> (0 <= max_val)%Z ->
  _normalize (Int (Z.of_nat count)) (Int max_val) weight = full.
Proof.
  intros Hsat Hcount Hpos. unfold saturated_from in Hsat. rewrite forallb_forall in Hsat.
  apply FloatAxioms.Leibniz.eqb_spec.
  replace (Z.of_nat count) with (max_val + Z.of_nat (count - Z.to_nat max_val))%Z by lia.
  apply Hsat, in_seq. lia.
Qed.

(** X20: for a document of at most 5000 tokens and sentences (the text is
    cut at 5000 characters) the absolutism sub-score is 4.0 per absolutist
    token up to 20.0 from five on, and the call-to-action sub-score is
    0.0, 10.0 or 20.0 for none, one, or two and more such sentences. *)
Theorem counting_scores_saturate (d : doc) :
  length (doc_tokens d) <= 5000 -> length (sents d) <= 5000 ->
  metric_absolutism d 20 = absolutism_by_count (length (absolutist_tokens d))
  /\ metric_call_to_action d 20 = cta_by_count (length (calls_to_action d)).
Proof.
  intros Htokens Hsents. split.
  - unfold metric_absolutism. fold (absolutist_tokens d).
    assert (Hlen : length (absolutist_tokens d) <= 5000).
    { etransitivity; [apply length_filter|exact Htokens]. }
    destruct (length (absolutist_tokens d)) as [|[|[|[|[|n]]]]] eqn:Hn;
      [vm_compute; reflexivity..|].
    cbn [absolutism_by_count].
    apply (normalize_saturates 5 20 20 4996); [vm_compute; reflexivity|lia|lia].
  - unfold metric_call_to_action. fold (calls_to_action d).
    assert (Hlen : length (calls_to_action d) <= 5000).
    { etransitivity; [apply length_filter|exact Hsents]. }
    destruct (length (calls_to_action d)) as [|[|n]] eqn:Hn;
      [vm_compute; reflexivity..|].
    cbn [cta_by_count].
    apply (normalize_saturates 2 20 20 4999); [vm_compute; reflexivity|lia|lia].
Qed.

(** X21: [score_article] looks at the title and the content only: two
    articles that agree on both get the same result; with a language
    model the score is between 1.0 and 10.0, without one it is 5.0. *)
Theorem score_article_reads_title_and_content
  (float_repr : float -> string) (nlp : option (string -> doc))
  (a b : gmap string value) :
  a !! "title" = b !! "title" -> a !! "content" = b !! "content" ->
  score_article float_repr nlp a = score_article float_repr nlp b
  /\ (1 <=? bias_score_1_to_10 (score_article float_repr nlp a)) = true
  /\ (bias_score_1_to_10 (score_article float_repr nlp a) <=? 10) = true
  /\ (nlp = None -> bias_score_1_to_10 (score_article float_repr nlp a) = 5).
Proof.
  intros Ht Hc. unfold score_article. rewrite Ht, Hc. split; [reflexivity|].
  unfold analyze_article. destruct nlp as [f|]; cbn [bias_score_1_to_10].
  - match goal with
    | |- context [PyFloat.py_max 1 (PyFloat.py_min 10 ?x)] =>
        destruct (clamp_bounds 1 10 x) as [Hlo Hhi]; try reflexivity
    end.
    split; [exact Hlo|]. split; [exact Hhi|discriminate].
  - repeat split; reflexivity.
Qed.

End ScorerMore.

(** ** The prompt *)

Section Prompt.
Import LLMPromptBuilder.

Variable float_repr : float -> string.

Lemma article_line_same (i : nat) (a b : gmap string value) :
  same_for_prompt a b -> article_line float_repr i a = article_line float_repr i b.
Proof. intros (Hs & Hb & Hk & Ht). unfold article_line. now rewrite Hs, Hb, Hk, Ht. Qed.

Lemma add_lines_same (arts arts' : list (gmap string value)) :
  Forall2 same_for_prompt arts arts' ->
  forall (i : nat) (section : string),
    add_lines float_repr i arts section = add_lines float_repr i arts' section.
Proof.
  induction 1 as [|a b arts arts' Hab _ IH]; intros i section; [reflexivity|].
  cbn [add_lines]. now rewrite (article_line_same i a b Hab), IH.
Qed.

Lemma add_group_same (arts arts' : list (gmap string value)) (section : string) :
  Forall2 same_for_prompt arts arts' ->
  add_group float_repr arts section = add_group float_repr arts' section.
Proof.
  intros Hsame. unfold add_group.
  pose proof (add_lines_same arts arts' Hsame 1 section) as Hlines.
  destruct Hsame; [reflexivity|exact Hlines].
Qed.

(** X22: the prompt shows of an article only its source, its bucket and
    its key points (or, without key points, its title): two pairs of
    groups that agree article by article on these four fields give the
    same prompt, so scores, stances and contents never reach it. *)
Theorem prompt_reads_four_fields (topic : string)
  (in_favor in_favor' against against' : list (gmap string value)) :
  Forall2 same_for_prompt in_favor in_favor' ->
  Forall2 same_for_prompt against against' ->
  build_prompt float_repr topic in_favor against
  = build_prompt float_repr topic in_favor' against'.
Proof.
  intros Hf Ha. unfold build_prompt, _format_input_data. cbv zeta.
  now rewrite (add_group_same in_favor in_favor' _ Hf),
    (add_group_same against against' _ Ha).
Qed.

Lemma string_app_assoc (a b c : string) : (a +:+ b) +:+ c = a +:+ (b +:+ c).
Proof.
  induction a as [|x a IH]; [reflexivity|].
  change ((String x (a +:+ b)) +:+ c = String x (a +:+ (b +:+ c))).
  change (String x ((a +:+ b) +:+ c) = String x (a +:+ (b +:+ c))). now rewrite IH.
Qed.

Lemma string_app_nil_r (a : string) : a +:+ "" = a.
Proof.
  induction a as [|x a IH]; [reflexivity|].
  change (String x (a +:+ "") = String x a). now rewrite IH.
Qed.

Lemma add_lines_appends (arts : list (gmap string value)) :
  forall (i : nat) (section : string),
    add_lines float_repr i arts section = section +:+ lines_from float_repr i arts.
Proof.
  induction arts as [|art rest IH]; intros i section; cbn [add_lines lines_from].
  - now rewrite string_app_nil_r.
  - now rewrite IH, string_app_assoc.
Qed.

Lemma add_group_appends (arts : list (gmap string value)) (section : string) :
  add_group float_repr arts section = section +:+ group_text float_repr arts.
Proof.
  unfold add_group, group_text. destruct arts as [|art rest]; [reflexivity|].
  apply add_lines_appends.
Qed.

(** X23: the input block is the topic header followed by the two groups
    under their headings, in favor first; a group is the lines of its
    articles in their order, numbered from 1, and an empty group is the
    one line saying so. *)
Theorem input_block_layout (topic : string)
  (in_favor against : list (gmap string value)) :
  _format_input_data float_repr topic in_favor against
  = "TOPIC: " +:+ topic +:+ nl +:+ nl +:+ "INPUT DATA:" +:+ nl
    +:+ "--- GROUP A: ARTICLES IN FAVOR (SUPPORTING) ---" +:+ nl
    +:+ group_text float_repr in_favor
    +:+ nl +:+ "--- GROUP B: ARTICLES AGAINST (OPPOSING) ---" +:+ nl
    +:+ group_text float_repr against.
Proof.
  unfold _format_input_data. cbv zeta.
  rewrite !add_group_appends, !string_app_assoc. reflexivity.
Qed.

End Prompt.

(** ** The further properties at work *)

Lemma classify_articles_idempotent_witness :
  exists h', OpinionClassifier.classify_articles (fun _ => "") None sample_heap 1%positive
             = Ret (h', 1%positive)
             /\ OpinionClassifier.classify_articles (fun _ => "") None h' 1%positive
                = Ret (h', 1%positive).
Proof.
  apply (classify_articles_idempotent (fun _ => "") None sample_heap 1%positive
           [2%positive; 3%positive; 2%positive]).
  - vm_compute. reflexivity.
  - vm_compute. reflexivity.
Defined.

Lemma stance_matches_score_witness :
  exists h', OpinionClassifier.classify_articles (fun _ => "") None sample_heap 1%positive
             = Ret (h', 1%positive)
             /\ forall a : loc, a ∈ [2%positive; 3%positive; 2%positive] ->
                 exists d', h' !! a = Some (ODict d') /\ OpinionClassifier.consistent d'.
Proof.
  apply (stance_matches_score (fun _ => "") None sample_heap 1%positive
           [2%positive; 3%positive; 2%positive]).
  - vm_compute. reflexivity.
  - vm_compute. reflexivity.
Defined.

Lemma blank_text_is_neutral_witness :
  exists h' d',
    OpinionClassifier.classify_articles (fun _ => "") (Some (fun _ => 0.9%float))
      blank_heap 1%positive = Ret (h', 1%positive)
    /\ h' !! 2%positive = Some (ODict d') /\ OpinionClassifier.forced_neutral d'.
Proof.
  apply (blank_text_is_neutral (fun _ => "") (Some (fun _ => 0.9%float))
           blank_heap 1%positive [2%positive] 2%positive blank_article).
  - vm_compute. reflexivity.
  - vm_compute. reflexivity.
  - constructor.
  - vm_compute. reflexivity.
  - vm_compute. reflexivity.
  - vm_compute. exact I.
Defined.

Lemma config_error_gathers_nothing_witness :
  NewsGatherer._load_config (Raise (Exception "FileNotFoundError")) = Ret []
  /\ NewsGatherer.gather_from_config (Some flaky_parser) (fun tasks => tasks)
       (Raise (Exception "FileNotFoundError")) (Some "ukraine") = Ret [].
Proof.
  apply (proj1 (config_error_gathers_nothing (Some flaky_parser) (fun tasks => tasks)
                  "FileNotFoundError" (Some "ukraine")
                  (fun tasks => Permutation_refl tasks))).
  left. reflexivity.
Defined.

Lemma gathered_bucket_is_known_witness :
  NewsGatherer.gather_articles (Some flaky_parser) (fun tasks => tasks) two_sources None
  = Ret [split_word_article]
  /\ split_word_article !! "political_bucket" = Some (VStr "left")
  /\ exists (key : string) (url_list : list string) (url : string)
            (fd : NewsGatherer.feed_data) (normalized : list (gmap string value))
            (bucket : string),
      (key, url_list) ∈ two_sources /\ url ∈ url_list
      /\ NewsGatherer._fetch_articles (Some flaky_parser) url = Ret (Some fd)
      /\ NewsGatherer._normalize_articles fd bucket url = Ret normalized
      /\ split_word_article ∈ normalized
      /\ split_word_article !! "political_bucket" = Some (VStr bucket)
      /\ NewsGatherer.bucket_of_key key bucket.
Proof.
  split; [reflexivity|]. split; [vm_compute; reflexivity|].
  apply (gathered_bucket_is_known (Some flaky_parser) (fun tasks => tasks) two_sources None
           [split_word_article] split_word_article).
  - intros tasks. reflexivity.
  - reflexivity.
  - constructor.
Defined.

Lemma gather_keeps_every_article_witness :
  exists result,
    NewsGatherer.gather_articles (Some flaky_parser) (fun tasks => rev tasks) two_sources None
    = Ret result
    /\ result ≡ₚ NewsGatherer.filter_by_topic None
                   (flat_map (NewsGatherer.contribution (Some flaky_parser))
                      (NewsGatherer.build_tasks two_sources))
    /\ length result
       <= length (flat_map (NewsGatherer.contribution (Some flaky_parser))
                    (NewsGatherer.build_tasks two_sources))
    /\ (@None string = None ->
        result ≡ₚ flat_map (NewsGatherer.contribution (Some flaky_parser))
                    (NewsGatherer.build_tasks two_sources)).
Proof.
  apply (gather_keeps_every_article (Some flaky_parser) (fun tasks => rev tasks)
           two_sources None).
  intros tasks. symmetry. apply Permutation_rev.
Defined.

Lemma topic_case_is_ignored_witness :
  NewsGatherer.gather_articles (Some flaky_parser) (fun tasks => tasks) two_sources
    (Some "UKRAINE War")
  = NewsGatherer.gather_articles (Some flaky_parser) (fun tasks => tasks) two_sources
      (Some "Ukraine WAR").
Proof.
  apply (topic_case_is_ignored (Some flaky_parser) (fun tasks => tasks) two_sources
           "UKRAINE War" "Ukraine WAR").
  reflexivity.
Defined.

Lemma keywords_are_usable_witness :
  NewsGatherer.keywords_of "Ukraine War Crisis" <> []
  /\ forall k, k ∈ NewsGatherer.keywords_of "Ukraine War Crisis" ->
               k <> "" /\ PyStr.lower k = k.
Proof.
  apply (keywords_are_usable "Ukraine War Crisis"). discriminate.
Defined.

Lemma normalized_articles_shape_witness :
  length media_articles = length (NewsGatherer.entries media_feed)
  /\ (forall art, art ∈ media_articles ->
        dom art = NewsGatherer.article_keys
        /\ art !! "political_bucket" = Some (VStr "right"))
  /\ exists source_name,
      forall (i : nat) (e : NewsGatherer.entry),
        NewsGatherer.entries media_feed !! i = Some e ->
        media_articles !! i
        = Some (NewsGatherer.normalize_entry e source_name "right"
                  "https://www.news.example/feed").
Proof.
  apply (normalized_articles_shape media_feed "right" "https://www.news.example/feed"
           media_articles).
  reflexivity.
Defined.

Lemma avatar_sorts_last_witness :
  NewsGatherer.get_str
    (NewsGatherer.normalize_entry bare_entry "Daily" "left" "https://daily.example/rss")
    "image"
  = NewsGatherer.avatar_url "Daily" "left"
  /\ NewsGatherer.image_key
       (NewsGatherer.normalize_entry bare_entry "Daily" "left" "https://daily.example/rss")
     = 1.
Proof.
  apply (avatar_sorts_last bare_entry "Daily" "left" "https://daily.example/rss").
  reflexivity.
Defined.

(** A network that always answers with a page that has an og:image. *)
Lemma no_request_without_http_witness :
  ImageHandler.get_article_image
    (fun _ => Ret {| ImageHandler.status_code := 200; ImageHandler.body := "page" |})
    (fun _ => Some "https://img.example/og.png") ∅ "" "Reuters"
  = ImageHandler.get_article_image
      (fun _ => Raise (Exception "Timeout")) (fun _ => None) ∅ "" "Reuters".
Proof.
  apply (no_request_without_http
           (fun _ => Ret {| ImageHandler.status_code := 200; ImageHandler.body := "page" |})
           (fun _ => Some "https://img.example/og.png")
           (fun _ => Raise (Exception "Timeout")) (fun _ => None) ∅ "" "Reuters").
  reflexivity.
Defined.

Lemma image_on_miss_witness :
  let img := (ImageHandler.get_article_image (fun _ => Raise (Exception "Timeout"))
                (fun _ => None) ∅ "https://daily.example/a" "Reuters World").1 in
  (img ∈ ImageHandler.static_images
   \/ exists r, PyStr.startswith "https://daily.example/a" "http" = true
                /\ (fun _ : string => @Raise ImageHandler.response (Exception "Timeout"))
                     "https://daily.example/a" = Ret r
                /\ ImageHandler.status_code r = 200%Z
                /\ (fun _ : string => @None string) (ImageHandler.body r) = Some img)
  /\ ((exists e, (fun _ : string => @Raise ImageHandler.response (Exception "Timeout"))
                   "https://daily.example/a" = Raise e) ->
      img ∈ ImageHandler.static_images).
Proof.
  apply (image_on_miss (fun _ => Raise (Exception "Timeout")) (fun _ => None) ∅
           "https://daily.example/a" "Reuters World").
  reflexivity.
Defined.

Lemma counting_scores_saturate_witness :
  ArticleScorer.metric_absolutism sample_doc 20
  = ArticleScorer.absolutism_by_count (length (ArticleScorer.absolutist_tokens sample_doc))
  /\ ArticleScorer.metric_call_to_action sample_doc 20
     = ArticleScorer.cta_by_count (length (ArticleScorer.calls_to_action sample_doc)).
Proof.
  apply (counting_scores_saturate sample_doc); cbn; lia.
Defined.

Lemma score_article_reads_title_and_content_witness :
  ArticleScorer.score_article (fun _ => "") (Some (fun _ => sample_doc)) listed_article
  = ArticleScorer.score_article (fun _ => "") (Some (fun _ => sample_doc))
      listed_article_classified
  /\ (1 <=? ArticleScorer.bias_score_1_to_10
              (ArticleScorer.score_article (fun _ => "") (Some (fun _ => sample_doc))
                 listed_article))%float = true
  /\ (ArticleScorer.bias_score_1_to_10
        (ArticleScorer.score_article (fun _ => "") (Some (fun _ => sample_doc))
           listed_article) <=? 10)%float = true
  /\ (Some (fun _ : string => sample_doc) = None ->
      ArticleScorer.bias_score_1_to_10
        (ArticleScorer.score_article (fun _ => "") (Some (fun _ => sample_doc))
           listed_article) = 5%float).
Proof.
  apply (score_article_reads_title_and_content (fun _ => "") (Some (fun _ => sample_doc))
           listed_article listed_article_classified).
  - vm_compute. reflexivity.
  - vm_compute. reflexivity.
Defined.

Lemma prompt_reads_four_fields_witness :
  LLMPromptBuilder.build_prompt (fun _ => "") "Taxes" [listed_article] []
  = LLMPromptBuilder.build_prompt (fun _ => "") "Taxes" [listed_article_classified] [].
Proof.
  apply (prompt_reads_four_fields (fun _ => "") "Taxes"
           [listed_article] [listed_article_classified] [] []).
  - constructor; [|constructor]. repeat split; vm_compute; reflexivity.
  - constructor.
Defined.
